(** * triton.py: the run-orchestration script of Triton

    A shallow embedding of [src/triton.py]: [run_netuno], [setup_logger] and
    [main].  The script drives collaborators whose code lives in other
    modules ([agents.automators], [agents.exporter], [agents.parsers],
    [globals.constants]) and in Python's standard library ([subprocess],
    [time], [pathlib], [statistics], [logging]).  The collaborators are
    taken as the fields of a class [Collaborators]; the script itself is
    written in a small monad that threads the state of the outside world,
    propagates exceptions and records every call in a trace. *)

From Stdlib Require Import ZArith.
From Stdlib Require Import PrimFloat SpecFloat FloatOps.
From stdpp Require Import gmap strings list.

Local Open Scope Z_scope.
Local Open Scope list_scope.

(** ** Exceptions *)

(** The exception classes that the script names or that the library calls
    it makes raise; every other class is [Other] with its name. *)
Inductive exn : Type :=
  | StopIteration
  | StatisticsError
  | KeyError (key : string)
  | ValueError
  | OverflowError
  | FileNotFoundError
  | MissingInputDataError
  | InvalidNetunoExecutableError
  | InvalidSourceDirectoryError
  | Other (name : string).

Inductive result (A : Type) : Type :=
  | Ok (a : A)
  | Raise (e : exn).
Arguments Ok {A} a.
Arguments Raise {A} e.

Definition is_ok {A} (r : result A) : bool :=
  match r with Ok _ => true | Raise _ => false end.

(** ** pathlib paths *)

(** A [pathlib.Path]: its anchor (drive and root) and the components
    after it. *)
Record Path : Type := mkPath { anchor : string; parts : list string }.

(** [PurePath.parent]: the path without its last component; a path with no
    component after the anchor is its own parent. *)
Definition parent (p : Path) : Path :=
  match parts p with
  | [] => p
  | _ :: _ => mkPath (anchor p) (removelast (parts p))
  end.

(** [PurePath.name]: the last component, or the empty string. *)
Definition name (p : Path) : string := List.last (parts p) EmptyString.

(** ** logging *)

Module logging.
Definition NOTSET : Z := 0.
Definition DEBUG : Z := 10.
Definition INFO : Z := 20.
Definition WARNING : Z := 30.
Definition ERROR : Z := 40.

Record Handler : Type := mkHandler {
  handler_level : Z;
  handler_fmt : string;
  handler_datefmt : string
}.

Record Logger : Type := mkLogger {
  level : Z;
  propagate : bool;
  handlers : list Handler
}.

(** [logging.getLogger("triton")] before any configuration. *)
Definition getLogger : Logger := mkLogger NOTSET true [].

(** [Logger.getEffectiveLevel] for a child of the root logger, whose
    level is WARNING unless configured: the first level that is set. *)
Definition getEffectiveLevel (l : Logger) : Z :=
  if level l =? NOTSET then WARNING else level l.
End logging.

(** Lines 51-58 of [setup_logger]: the level picked from the two flags. *)
Definition log_level_of (quiet_count : Z) (verbose : bool) : Z :=
  if verbose then logging.DEBUG
  else if quiet_count =? 1 then logging.WARNING
  else if quiet_count >=? 2 then logging.ERROR
  else logging.INFO.

(** [setup_logger]: mutates the logger; here it returns the new logger. *)
Definition setup_logger (logger : logging.Logger) (quiet_count : Z) (verbose : bool)
  : logging.Logger :=
  let log_level := log_level_of quiet_count verbose in
  let handler :=
    logging.mkHandler log_level
      "%(asctime)s  %(levelname)-8.8s: %(message)s" "%Y-%m-%dT%H:%M:%S%z" in
  logging.mkLogger log_level true (logging.handlers logger ++ [handler]).

(** ** Floats and statistics.mean *)

(** Python's floats are IEEE 754 binary64 numbers: clock readings and
    durations are primitive floats, and [now - start] is [PrimFloat.sub]. *)

(** [math.isfinite] negated: infinities and NaN. *)
Definition nonfinite (x : float) : bool :=
  match Prim2SF x with
  | S754_infinity _ | S754_nan => true
  | _ => false
  end.

(** [float.as_integer_ratio] of a finite float, as the integer [m] and the
    exponent [e] of its exact value [m * 2^e]. *)
Definition dyadic (x : float) : Z * Z :=
  match Prim2SF x with
  | S754_finite s m e => (cond_Zopp s (Zpos m), e)
  | _ => (0, 0)
  end.

(** The exact sum of two such values. *)
Definition dyadic_add (a b : Z * Z) : Z * Z :=
  let e := Z.min (snd a) (snd b) in
  (fst a * 2 ^ (snd a - e) + fst b * 2 ^ (snd b - e), e).

(** [statistics._sum] on finite floats: the sum as an exact fraction. *)
Definition exact_sum (data : list float) : Z * Z :=
  fold_right (fun x acc => dyadic_add (dyadic x) acc) (0, 0) data.

Definition SF_of_dyadic (d : Z * Z) : spec_float :=
  match fst d with
  | Z0 => S754_zero false
  | Zpos m => S754_finite false m (snd d)
  | Zneg m => S754_finite true m (snd d)
  end.

(** [float(n)] for a count. *)
Definition float_of_count (n : nat) : float :=
  SF2Prim (binary_normalize prec emax (Z.of_nat n) 0 false).

(** [statistics.mean] on a non-empty list of floats: the exact sum divided
    by the count, rounded once to the nearest float (ties to even); when
    some values are not finite, [_sum] returns their float sum instead and
    the division is a float division. *)
Definition mean_of_floats (data : list float) : float :=
  match filter (fun x => nonfinite x) data with
  | [] =>
      SF2Prim (SFdiv prec emax (SF_of_dyadic (exact_sum data))
                 (S754_finite false (Pos.of_nat (length data)) 0))
  | (_ :: _) as others =>
      (fold_left PrimFloat.add others 0 / float_of_count (length data))%float
  end.

(** [statistics.mean]: raises [StatisticsError] on an empty sequence. *)
Definition mean (data : list float) : result float :=
  match data with
  | [] => Raise StatisticsError
  | _ :: _ => Ok (mean_of_floats data)
  end.

(** ** The collaborators *)

(** City, model and scenario, as [FileNameParser.get_metadata] returns
    them. *)
Definition Meta : Type := (string * string * string)%type.

(** The namespace that [parser.parse_args] fills. *)
Record CommandLineArgsValidator : Type := mkArgs {
  netuno_exe_path : Path;
  precipitation_dir_path : Path;
  quiet : Z;
  verbose : bool
}.

(** Everything [triton.py] imports and calls.  [W] is the state of the
    outside world (the operating system, the Netuno window, the file
    system, the clock); a call that can raise returns a [result].  The
    constants of [globals.constants] and the types of the values that only
    pass through the script are fields too. *)
Class Collaborators : Type := {
  W : Type;
  Date : Type;      (* the values of INITIAL_DATES *)
  Value : Type;     (* the values of SIMULATION_PARAMETERS *)
  Records : Type;   (* what parse_results returns *)
  Popen : Type;     (* subprocess.Popen objects *)
  (* globals.constants *)
  INITIAL_DATES : gmap string Date;
  NETUNO_STARTUP_WAIT_TIME : Z;
  SIMULATION_PARAMETERS : gmap string Value;
  (* subprocess: Popen(args=(path,)), Popen.pid, Popen.poll(),
     Popen.terminate() *)
  env_Popen : Path -> W -> result Popen * W;
  pid : Popen -> Z;
  env_poll : Popen -> W -> option Z;
  env_terminate : Popen -> W -> W;
  (* time: sleep(seconds), which raises for an interval it refuses
     (negative, or too large for the platform); perf_counter() *)
  env_sleep : Z -> W -> result unit * W;
  env_perf_counter : W -> float * W;
  (* pathlib: the entries that Path.iterdir() yields, in its order *)
  env_iterdir : Path -> W -> list Path;
  (* agents.validators: CommandLineArgsValidator.validate_arguments() *)
  env_validate_arguments : CommandLineArgsValidator -> W -> result unit * W;
  (* agents.automators: NetunoAutomator(), run_first_simulation(file,
     start_date, **parameters), run_simulation(file, start_date) *)
  env_NetunoAutomator : W -> result unit * W;
  env_run_first_simulation :
    Path -> Date -> gmap string Value -> W -> result Path * W;
  env_run_simulation : Path -> Date -> W -> result Path * W;
  (* agents.parsers: FileNameParser.get_metadata(path), a function of the
     file name alone; ResultParser(output_path), parse_results() *)
  env_get_metadata : Path -> result Meta;
  env_ResultParser : Path -> W -> result unit * W;
  env_parse_results : Path -> W -> result Records * W;
  (* agents.exporter: Exporter(root), save_results(city, model, scenario,
     records) on the exporter constructed with root *)
  env_Exporter : Path -> W -> result unit * W;
  env_save_results :
    Path -> string -> string -> string -> Records -> W -> result unit * W
}.

Section Script.
Context `{C : Collaborators}.

(** ** Traces *)

(** What the script hands to its logger ([logger.debug], [logger.info],
    [logger.exception]), before formatting and whatever the logger's level
    lets through. *)
Inductive LogMsg : Type :=
  | LogSpawned (process_id : Z)
  | LogFirstFinished (city model scenario : string) (elapsed : float)
  | LogFinished (city model scenario : string) (duration : float)
  | LogCompleted (total : float) (average : float)
  | LogTerminated
  | LogValidationFailed (exception : exn).

(** One event per call that leaves the script and per lookup in
    [INITIAL_DATES], with its arguments and, where it can raise, its
    outcome. *)
Inductive Event : Type :=
  | EValidate (r : result unit)
  | EPopen (exe : Path) (r : result Popen)
  | ESleep (seconds : Z) (r : result unit)
  | EClock (t : float)
  | EAutomator (r : result unit)
  | EExporter (root : Path) (r : result unit)
  | EIterdir (dir : Path) (entries : list Path)
  | EGetMetadata (file : Path) (r : result Meta)
  | EInitialDate (scenario : string) (r : result Date)
  | ERunFirst (file : Path) (start_date : Date) (params : gmap string Value)
      (r : result Path)
  | ERunSim (file : Path) (start_date : Date) (r : result Path)
  | EParser (output_path : Path) (r : result unit)
  | EParse (output_path : Path) (r : result Records)
  | ESave (root : Path) (city model scenario : string) (records : Records)
      (r : result unit)
  | ETerminate (process : Popen)
  | ELog (m : LogMsg).

(** Whether the call behind an event returned: [false] exactly for a
    collaborator call that raised. *)
Definition returned (e : Event) : bool :=
  match e with
  | EValidate r => is_ok r
  | EPopen _ r => is_ok r
  | ESleep _ r => is_ok r
  | EAutomator r => is_ok r
  | EExporter _ r => is_ok r
  | EGetMetadata _ r => is_ok r
  | EInitialDate _ r => is_ok r
  | ERunFirst _ _ _ r => is_ok r
  | ERunSim _ _ r => is_ok r
  | EParser _ r => is_ok r
  | EParse _ r => is_ok r
  | ESave _ _ _ _ _ r => is_ok r
  | _ => true
  end.

(** ** The monad of the script: world state, exceptions, trace *)

Definition M (A : Type) : Type := W -> result A * W * list Event.

Definition ret {A} (a : A) : M A := fun w => (Ok a, w, []).

Definition raise {A} (e : exn) : M A := fun w => (Raise e, w, []).

Definition bind {A B} (m : M A) (k : A -> M B) : M B := fun w =>
  match m w with
  | (Ok a, w1, t1) =>
      match k a w1 with (r, w2, t2) => (r, w2, t1 ++ t2) end
  | (Raise e, w1, t1) => (Raise e, w1, t1)
  end.

Notation "'do' x <~ m 'in' k" := (bind m (fun x => k))
  (at level 10, x name, m at level 100, k at level 200).
Notation "'do' ' pat <~ m 'in' k" := (bind m (fun x => match x with pat => k end))
  (at level 10, pat pattern, m at level 100, k at level 200).

(** A call that can raise, recorded with its outcome. *)
Definition call {A} (f : W -> result A * W) (ev : result A -> Event) : M A :=
  fun w => match f w with (r, w1) => (r, w1, [ev r]) end.

(** A call that cannot raise. *)
Definition emit (f : W -> W) (ev : Event) : M unit :=
  fun w => (Ok tt, f w, [ev]).

Definition trace_of {A} (x : result A * W * list Event) : list Event := snd x.
Definition outcome_of {A} (x : result A * W * list Event) : result A := fst (fst x).
Definition world_of {A} (x : result A * W * list Event) : W := snd (fst x).

(** ** The calls the script makes *)

Definition subprocess_Popen (exe : Path) : M Popen :=
  call (env_Popen exe) (EPopen exe).

Definition time_sleep (seconds : Z) : M unit :=
  call (env_sleep seconds) (ESleep seconds).

Definition time_perf_counter : M float :=
  fun w => match env_perf_counter w with (t, w1) => (Ok t, w1, [EClock t]) end.

Definition logger_debug (m : LogMsg) : M unit := emit id (ELog m).
Definition logger_info (m : LogMsg) : M unit := emit id (ELog m).

Definition NetunoAutomator : M unit :=
  call env_NetunoAutomator EAutomator.

(** [Exporter(root)]: the object is represented by the root it was
    constructed with. *)
Definition Exporter (root : Path) : M Path :=
  do _ <~ call (env_Exporter root) (EExporter root) in ret root.

(** [Path.iterdir()]: the iterator over the directory's entries, as the
    list of entries it has still to yield; the directory is listed once,
    whether by the call or by the first [next]. *)
Definition iterdir (dir : Path) : M (list Path) :=
  fun w => (Ok (env_iterdir dir w), w, [EIterdir dir (env_iterdir dir w)]).

(** [next(it)]: the entry and the advanced iterator, or [StopIteration]. *)
Definition next (it : list Path) : M (Path * list Path) :=
  match it with
  | [] => raise StopIteration
  | x :: it' => ret (x, it')
  end.

Definition get_metadata (file : Path) : M Meta :=
  call (fun w => (env_get_metadata file, w)) (EGetMetadata file).

(** [d[key]] on a dict: [KeyError] when the key is absent. *)
Definition getitem (d : gmap string Date) (key : string) : result Date :=
  match d !! key with
  | Some v => Ok v
  | None => Raise (KeyError key)
  end.

(** [INITIAL_DATES[scenario]]. *)
Definition initial_date (scenario : string) : M Date :=
  call (fun w => (getitem INITIAL_DATES scenario, w)) (EInitialDate scenario).

Definition run_first_simulation (file : Path) (start_date : Date)
    (kwargs : gmap string Value) : M Path :=
  call (env_run_first_simulation file start_date kwargs)
       (ERunFirst file start_date kwargs).

Definition run_simulation (file : Path) (start_date : Date) : M Path :=
  call (env_run_simulation file start_date) (ERunSim file start_date).

(** [ResultParser(output_path)]: the object is represented by the path it
    was constructed with. *)
Definition ResultParser (output_path : Path) : M Path :=
  do _ <~ call (env_ResultParser output_path) (EParser output_path) in
  ret output_path.

Definition parse_results (parser : Path) : M Records :=
  call (env_parse_results parser) (EParse parser).

Definition save_results (exporter : Path) (city model scenario : string)
    (records : Records) : M unit :=
  call (env_save_results exporter city model scenario records)
       (ESave exporter city model scenario records).

Definition terminate (process : Popen) : M unit :=
  emit (env_terminate process) (ETerminate process).

Definition statistics_mean (data : list float) : M float :=
  fun w => (mean data, w, []).

Definition validate_arguments (validator : CommandLineArgsValidator) : M unit :=
  call (env_validate_arguments validator) EValidate.

(** ** run_netuno (lines 19-37) *)

Definition run_netuno (path_to_netuno : Path) (wait_after_start : Z) : M Popen :=
  do new_process <~ subprocess_Popen path_to_netuno in
  do _ <~ logger_debug (LogSpawned (pid new_process)) in
  do _ <~ time_sleep wait_after_start in
  ret new_process.

(** ** main (lines 72-108) *)

(** The [for file in path_iterator] loop of lines 91-101, on the entries
    the iterator has still to yield; it returns the list [durations]. *)
Fixpoint main_loop (exporter : Path) (path_iterator : list Path)
    (durations : list float) : M (list float) :=
  match path_iterator with
  | [] => ret durations
  | file :: path_iterator' =>
      do iteration_start_time <~ time_perf_counter in
      do '(city, model, scenario) <~ get_metadata file in
      do start_date <~ initial_date scenario in
      do output_path <~ run_simulation file start_date in
      do parser <~ ResultParser output_path in
      do records <~ parse_results parser in
      do _ <~ save_results exporter city model scenario records in
      do now <~ time_perf_counter in
      let duration := (now - iteration_start_time)%float in
      do _ <~ logger_info (LogFinished city model scenario duration) in
      main_loop exporter path_iterator' (durations ++ [duration])
  end.

Definition main (args : CommandLineArgsValidator) : M unit :=
  do global_start_time <~ time_perf_counter in
  do netuno_process <~ run_netuno (netuno_exe_path args) NETUNO_STARTUP_WAIT_TIME in
  do _ <~ NetunoAutomator in
  let durations := [] in
  do exporter <~ Exporter (parent (parent (precipitation_dir_path args))) in
  do path_iterator <~ iterdir (precipitation_dir_path args) in
  do iteration_start_time <~ time_perf_counter in
  do '(first_file, path_iterator) <~ next path_iterator in
  do '(city, model, scenario) <~ get_metadata first_file in
  do start_date <~ initial_date scenario in
  do output_path <~ run_first_simulation first_file start_date SIMULATION_PARAMETERS in
  do parser <~ ResultParser output_path in
  do records <~ parse_results parser in
  do _ <~ save_results exporter city model scenario records in
  do now <~ time_perf_counter in
  do _ <~ logger_info
         (LogFirstFinished city model scenario (now - iteration_start_time)%float) in
  do durations <~ main_loop exporter path_iterator durations in
  do now <~ time_perf_counter in
  do average <~ statistics_mean durations in
  do _ <~ logger_info (LogCompleted (now - global_start_time)%float average) in
  do _ <~ terminate netuno_process in
  logger_info LogTerminated.

(** ** The entry point (lines 130-142) *)

(** The exceptions of the [except] clause of line 136. *)
Definition validation_error (e : exn) : bool :=
  match e with
  | InvalidNetunoExecutableError | InvalidSourceDirectoryError
  | MissingInputDataError => true
  | _ => false
  end.

(** [try: validator.validate_arguments() except (...): logger.exception(...)
    else: main(validator)], after the arguments are parsed and the logger
    is set up. *)
Definition script (validator : CommandLineArgsValidator) : M unit :=
  fun w =>
    match validate_arguments validator w with
    | (Ok _, w1, t1) =>
        match main validator w1 with (r, w2, t2) => (r, w2, t1 ++ t2) end
    | (Raise e, w1, t1) =>
        if validation_error e
        then (Ok tt, w1, t1 ++ [ELog (LogValidationFailed e)])
        else (Raise e, w1, t1)
    end.

End Script.

(** ** Observations on traces *)

Section Observations.
Context `{C : Collaborators}.

(** The stages of the per-file pipeline that reach the collaborators. *)
Inductive Stage : Type :=
  | Extracted (file : Path)
  | FirstRun (file : Path)
  | NextRun (file : Path).

Definition stage_of (e : Event) : option Stage :=
  match e with
  | EGetMetadata f _ => Some (Extracted f)
  | ERunFirst f _ _ _ => Some (FirstRun f)
  | ERunSim f _ _ => Some (NextRun f)
  | _ => None
  end.

Definition stages (t : list Event) : list Stage := omap stage_of t.

Definition run_first_file (e : Event) : option Path :=
  match e with ERunFirst f _ _ _ => Some f | _ => None end.

Definition run_simulation_file (e : Event) : option Path :=
  match e with ERunSim f _ _ => Some f | _ => None end.

(** The files [run_first_simulation] was called on, in call order. *)
Definition run_first_calls (t : list Event) : list Path := omap run_first_file t.

(** The files [run_simulation] was called on, in call order. *)
Definition run_simulation_calls (t : list Event) : list Path :=
  omap run_simulation_file t.

Definition listing_of (e : Event) : option (list Path) :=
  match e with EIterdir _ entries => Some entries | _ => None end.

(** What each iteration of a directory yielded: the entries, in the order
    of iteration. *)
Definition listings (t : list Event) : list (list Path) := omap listing_of t.

Definition terminated_process (e : Event) : option Popen :=
  match e with ETerminate p => Some p | _ => None end.

(** The processes [terminate] was called on. *)
Definition terminate_calls (t : list Event) : list Popen :=
  omap terminated_process t.

Definition launched_process (e : Event) : option Popen :=
  match e with EPopen _ (Ok p) => Some p | _ => None end.

(** The processes that [subprocess.Popen] launched. *)
Definition launched (t : list Event) : list Popen := omap launched_process t.

Definition applied_parameters (e : Event) : option (gmap string Value) :=
  match e with ERunFirst _ _ params _ => Some params | _ => None end.

(** The parameter mappings handed to the automator, one per call that
    takes one. *)
Definition parameter_applications (t : list Event) : list (gmap string Value) :=
  omap applied_parameters t.

Definition completed_average (e : Event) : option float :=
  match e with ELog (LogCompleted _ average) => Some average | _ => None end.

(** The averages given to the [logger.info] call of the final summary. *)
Definition reported_means (t : list Event) : list float :=
  omap completed_average t.

Definition first_elapsed (e : Event) : option float :=
  match e with ELog (LogFirstFinished _ _ _ d) => Some d | _ => None end.

(** The durations given to the [logger.info] call for the first
    simulation. *)
Definition reported_first_durations (t : list Event) : list float :=
  omap first_elapsed t.

Definition export_root (e : Event) : option Path :=
  match e with
  | EExporter root _ => Some root
  | ESave root _ _ _ _ _ => Some root
  | _ => None
  end.

(** The destination roots of the exporter's construction and of every
    [save_results] call. *)
Definition export_roots (t : list Event) : list Path := omap export_root t.

Definition exporter_root (e : Event) : option Path :=
  match e with EExporter root _ => Some root | _ => None end.

(** The roots the [Exporter] constructor was called with. *)
Definition exporter_roots (t : list Event) : list Path := omap exporter_root t.

Definition save_root (e : Event) : option Path :=
  match e with ESave root _ _ _ _ _ => Some root | _ => None end.

(** The root of the exporter of each [save_results] call. *)
Definition save_roots (t : list Event) : list Path := omap save_root t.

Definition export_key (e : Event) : option Meta :=
  match e with ESave _ city model scenario _ _ => Some (city, model, scenario) | _ => None end.

(** The (city, model, scenario) keys of the [save_results] calls. *)
Definition export_keys (t : list Event) : list Meta := omap export_key t.

Definition extracted_key (e : Event) : option Meta :=
  match e with EGetMetadata _ (Ok meta) => Some meta | _ => None end.

(** The metadata that [get_metadata] returned, in call order. *)
Definition extracted_keys (t : list Event) : list Meta := omap extracted_key t.

Definition is_run_simulation (e : Event) : bool :=
  match e with ERunSim _ _ _ => true | _ => false end.

Definition is_run_first (e : Event) : bool :=
  match e with ERunFirst _ _ _ _ => true | _ => false end.

(** The timer of a file's cycle, following the spec's words (an
    iteration's timing is the elapsed wall-clock time of one file's full
    cycle, metadata, run, parse, export): the last clock reading, the
    reading that preceded the latest metadata extraction, whether a run call
    of the kind looked for came since, and whether an export followed it. *)
Record Timer : Type := mkTimer {
  last_reading : float;
  cycle_start : float;
  ran : bool;
  exported : bool
}.

(** One event: a clock reading closes the cycle, and yields its duration
    when the cycle ran and exported; a metadata extraction opens a cycle at
    the reading before it. *)
Definition cycle_step (is_run : Event -> bool) (st : Timer) (e : Event)
  : Timer * list float :=
  match e with
  | EClock now =>
      (mkTimer now (cycle_start st) false false,
       if exported st then [(now - cycle_start st)%float] else [])
  | EGetMetadata _ _ =>
      (mkTimer (last_reading st) (last_reading st) false false, [])
  | ESave _ _ _ _ _ _ =>
      (mkTimer (last_reading st) (cycle_start st) (ran st) (ran st), [])
  | _ =>
      (mkTimer (last_reading st) (cycle_start st) (ran st || is_run e)
         (exported st), [])
  end.

Fixpoint cycle_state (is_run : Event -> bool) (st : Timer) (t : list Event)
  : Timer :=
  match t with
  | [] => st
  | e :: t' => cycle_state is_run (fst (cycle_step is_run st e)) t'
  end.

Fixpoint cycle_durations (is_run : Event -> bool) (st : Timer) (t : list Event)
  : list float :=
  match t with
  | [] => []
  | e :: t' =>
      snd (cycle_step is_run st e)
      ++ cycle_durations is_run (fst (cycle_step is_run st e)) t'
  end.

(** The timer before any event. *)
Definition idle : Timer := mkTimer 0 0 false false.

(** The durations of the non-first iterations of a trace: for each cycle
    with a [run_simulation] call, the clock reading that follows its export
    minus the one that precedes its metadata extraction. *)
Definition subsequent_durations (t : list Event) : list float :=
  cycle_durations is_run_simulation idle t.

(** The duration of the first iteration: the same for the cycle of the
    [run_first_simulation] call. *)
Definition first_durations (t : list Event) : list float :=
  cycle_durations is_run_first idle t.

(** Modelled from the spec: the body of [NetunoAutomator] is not under
    src/.  Section 4.1: [run_first] applies every entry of the parameters to
    the session; [run_simulation] reuses the session's already-applied
    parameters and only changes the input file and the start date.  The
    session's configuration is [None] until a first run. *)
Definition session_step (cfg : option (gmap string Value)) (e : Event)
  : option (gmap string Value) :=
  match e with
  | ERunFirst _ _ params _ => Some params
  | _ => cfg
  end.

Fixpoint session_after (cfg : option (gmap string Value)) (t : list Event)
  : option (gmap string Value) :=
  match t with
  | [] => cfg
  | e :: t' => session_after (session_step cfg e) t'
  end.

(** The configuration of the session that each [run_simulation] call of a
    trace runs under. *)
Fixpoint run_configurations (cfg : option (gmap string Value)) (t : list Event)
  : list (option (gmap string Value)) :=
  match t with
  | [] => []
  | ERunSim f d r :: t' => cfg :: run_configurations cfg t'
  | e :: t' => run_configurations (session_step cfg e) t'
  end.

(** The events the [for] loop can produce. *)
Definition loop_event (e : Event) : bool :=
  match e with
  | EClock _ | EGetMetadata _ _ | EInitialDate _ _ | ERunSim _ _ _
  | EParser _ _ | EParse _ _ | ESave _ _ _ _ _ _ | ELog (LogFinished _ _ _ _) => true
  | _ => false
  end.

(** The calls of one non-first file, when none raises. *)
Definition cycles (files : list Path) : list Stage :=
  flat_map (fun f => [Extracted f; NextRun f]) files.

End Observations.

(** ** Further observations on traces *)

Section Diagnostics.
Context `{C : Collaborators}.

(** The exception of a call that raised. *)
Definition failure (e : Event) : option exn :=
  match e with
  | EValidate (Raise x) | EPopen _ (Raise x) | ESleep _ (Raise x)
  | EAutomator (Raise x) | EExporter _ (Raise x) | EGetMetadata _ (Raise x)
  | EInitialDate _ (Raise x) | ERunFirst _ _ _ (Raise x)
  | ERunSim _ _ (Raise x) | EParser _ (Raise x) | EParse _ (Raise x)
  | ESave _ _ _ _ _ (Raise x) => Some x
  | _ => None
  end.

(** The first call of a trace that raised: its exception and the events
    that follow it. *)
Fixpoint first_failure (t : list Event) : option (exn * list Event) :=
  match t with
  | [] => None
  | e :: t' =>
      match failure e with
      | Some x => Some (x, t')
      | None => first_failure t'
      end
  end.

(** The calls that drive Netuno's window. *)
Definition automation (e : Event) : bool :=
  match e with
  | EAutomator _ | ERunFirst _ _ _ _ | ERunSim _ _ _ => true
  | _ => false
  end.

Definition popen_path (e : Event) : option Path :=
  match e with EPopen exe _ => Some exe | _ => None end.

(** The executables [subprocess.Popen] was called on. *)
Definition popen_paths (t : list Event) : list Path := omap popen_path t.

Definition run_start_date (e : Event) : option (Path * Date) :=
  match e with
  | ERunFirst f d _ _ => Some (f, d)
  | ERunSim f d _ => Some (f, d)
  | _ => None
  end.

(** The file and the start date of each run call. *)
Definition run_start_dates (t : list Event) : list (Path * Date) :=
  omap run_start_date t.

(** The start date the script computes for a file: the entry of
    [INITIAL_DATES] for the scenario that metadata extraction gives. *)
Definition expected_start_date (file : Path) : result Date :=
  match env_get_metadata file with
  | Ok (_, _, scenario) => getitem INITIAL_DATES scenario
  | Raise e => Raise e
  end.

Definition missing_scenario (e : Event) : option string :=
  match e with EInitialDate s (Raise _) => Some s | _ => None end.

(** The scenarios whose lookup in [INITIAL_DATES] raised. *)
Definition missing_scenarios (t : list Event) : list string :=
  omap missing_scenario t.

Definition run_output (e : Event) : option Path :=
  match e with
  | ERunFirst _ _ _ (Ok out) => Some out
  | ERunSim _ _ (Ok out) => Some out
  | _ => None
  end.

(** The output paths that the run calls returned. *)
Definition run_outputs (t : list Event) : list Path := omap run_output t.

Definition parser_path (e : Event) : option Path :=
  match e with EParser out _ => Some out | _ => None end.

(** The paths [ResultParser] was constructed with. *)
Definition parser_paths (t : list Event) : list Path := omap parser_path t.

Definition parse_path (e : Event) : option Path :=
  match e with EParse out _ => Some out | _ => None end.

(** The parsers (by their path) [parse_results] was called on. *)
Definition parse_paths (t : list Event) : list Path := omap parse_path t.

Definition parsed_record (e : Event) : option Records :=
  match e with EParse _ (Ok records) => Some records | _ => None end.

(** What the [parse_results] calls returned. *)
Definition parsed_records (t : list Event) : list Records := omap parsed_record t.

Definition saved_record (e : Event) : option Records :=
  match e with ESave _ _ _ _ records _ => Some records | _ => None end.

(** What the [save_results] calls were given. *)
Definition saved_records (t : list Event) : list Records := omap saved_record t.

Definition iteration_duration (e : Event) : option float :=
  match e with ELog (LogFinished _ _ _ d) => Some d | _ => None end.

(** The durations given to the per-iteration [logger.info] calls of the
    loop. *)
Definition reported_iteration_durations (t : list Event) : list float :=
  omap iteration_duration t.

Definition clock_reading (e : Event) : option float :=
  match e with EClock now => Some now | _ => None end.

(** What [time.perf_counter] returned, call after call. *)
Definition clock_readings (t : list Event) : list float :=
  omap clock_reading t.

Definition completed_total (e : Event) : option float :=
  match e with ELog (LogCompleted total _) => Some total | _ => None end.

(** The total times given to the [logger.info] call of the final
    summary. *)
Definition reported_totals (t : list Event) : list float :=
  omap completed_total t.

(** The calls that set the batch up. *)
Inductive Setup : Type :=
  | AutomatorBuilt
  | ExporterBuilt (root : Path)
  | DirectoryListed (dir : Path).

Definition setup_of (e : Event) : option Setup :=
  match e with
  | EAutomator _ => Some AutomatorBuilt
  | EExporter root _ => Some (ExporterBuilt root)
  | EIterdir dir _ => Some (DirectoryListed dir)
  | _ => None
  end.

Definition setup_calls (t : list Event) : list Setup := omap setup_of t.

Definition logged_key (e : Event) : option Meta :=
  match e with
  | ELog (LogFirstFinished city model scenario _) => Some (city, model, scenario)
  | ELog (LogFinished city model scenario _) => Some (city, model, scenario)
  | _ => None
  end.

(** The (city, model, scenario) given to the [logger.info] calls for a
    finished simulation. *)
Definition logged_keys (t : list Event) : list Meta := omap logged_key t.

Definition exported_key (e : Event) : option Meta :=
  match e with
  | ESave _ city model scenario _ (Ok _) => Some (city, model, scenario)
  | _ => None
  end.

(** The keys of the [save_results] calls that returned. *)
Definition exported_keys (t : list Event) : list Meta := omap exported_key t.

End Diagnostics.

(** ** A test double for the collaborators *)

#[global] Instance Path_eq_dec : EqDecision Path.
Proof. solve_decision. Defined.

Module Demo.

(** The outside world of the test double. *)
Record World : Type := mkWorld {
  clock : list float;      (* the readings perf_counter has still to give *)
  directory : list Path;   (* what iterating the input directory yields *)
  lifetime : option Z;     (* seconds after which Netuno exits by itself *)
  uptime : Z;              (* seconds slept since the launch *)
  stopped : bool           (* whether terminate was called *)
}.

Definition netuno_exe : Path := mkPath "C:\" ["Netuno4"; "Netuno4.exe"].

Definition precipitation : Path :=
  mkPath "C:\" ["data"; "Florianopolis"; "precipitation"].

Definition entry (file_name : string) : Path :=
  mkPath "C:\" ["data"; "Florianopolis"; "precipitation"; file_name].

(** File names the filename parser of the test double understands. *)
Definition catalogue (file_name : string) : result Meta :=
  if decide (file_name = "Florianopolis_MIROC5_rcp45.csv")
  then Ok ("Florianopolis", "MIROC5", "rcp45")
  else if decide (file_name = "Florianopolis_MIROC5_rcp85.csv")
  then Ok ("Florianopolis", "MIROC5", "rcp85")
  else if decide (file_name = "Florianopolis_HadGEM2_rcp45.csv")
  then Ok ("Florianopolis", "HadGEM2", "rcp45")
  else if decide (file_name = "Florianopolis_HadGEM2_rcp85.csv")
  then Ok ("Florianopolis", "HadGEM2", "rcp85")
  else if decide (file_name = "Florianopolis_Notes_rcp45.txt")
  then Ok ("Florianopolis", "Notes", "rcp45")
  else if decide (file_name = "Florianopolis_Broken_rcp45.csv")
  then Ok ("Florianopolis", "Broken", "rcp45")
  else Raise (Other "UnparsableFileNameError").

Definition output_of (file : Path) : Path := mkPath "C:\" ["out"; name file].

Definition tick (w : World) : float * World :=
  match clock w with
  | [] => (0%float, w)
  | t :: rest => (t, mkWorld rest (directory w) (lifetime w) (uptime w) (stopped w))
  end.

Definition poll (w : World) : option Z :=
  if stopped w then Some (-15)
  else match lifetime w with
       | Some l => if l <=? uptime w then Some 0 else None
       | None => None
       end.

#[global] Instance collaborators : Collaborators := {|
  W := World;
  Date := string;
  Value := Z;
  Records := list Z;
  Popen := Z;
  INITIAL_DATES := <["rcp45" := "2006-01-01"]> (<["rcp85" := "2006-01-01"]> ∅);
  NETUNO_STARTUP_WAIT_TIME := 5;
  SIMULATION_PARAMETERS := <["roof_area" := 100]> (<["tank_capacity" := 5000]> ∅);
  env_Popen exe w :=
    if decide (exe = netuno_exe) then (Ok 4242, w) else (Raise FileNotFoundError, w);
  pid p := p;
  env_poll _ w := poll w;
  env_terminate _ w :=
    mkWorld (clock w) (directory w) (lifetime w) (uptime w) true;
  env_sleep seconds w :=
    if seconds <? 0 then (Raise ValueError, w)
    else if 9223372036 <=? seconds then (Raise OverflowError, w)
    else (Ok tt,
          mkWorld (clock w) (directory w) (lifetime w) (uptime w + seconds)
            (stopped w));
  env_perf_counter := tick;
  env_iterdir _ w := directory w;
  env_validate_arguments validator w :=
    if decide (netuno_exe_path validator = netuno_exe)
    then match directory w with
         | [] => (Raise MissingInputDataError, w)
         | _ :: _ => (Ok tt, w)
         end
    else (Raise InvalidNetunoExecutableError, w);
  env_NetunoAutomator w := (Ok tt, w);
  env_run_first_simulation file _ _ w := (Ok (output_of file), w);
  env_run_simulation file _ w := (Ok (output_of file), w);
  env_get_metadata file := catalogue (name file);
  env_ResultParser _ w := (Ok tt, w);
  env_parse_results output w :=
    if decide (name output = "Florianopolis_Broken_rcp45.csv")
    then (Raise (Other "ResultParseError"), w)
    else (Ok [1; 2; 3], w);
  env_Exporter _ w := (Ok tt, w);
  env_save_results _ _ _ _ _ w := (Ok tt, w)
|}.

Definition args : CommandLineArgsValidator :=
  mkArgs netuno_exe precipitation 0 false.

(** A world in which Netuno stays up, the clock gives [readings] and the
    input directory holds [files]. *)
Definition world (readings : list float) (files : list string) : World :=
  mkWorld readings (map entry files) None 0 false.

(** Four files; the cycles of the three non-first ones take 2, 3 and 4
    seconds, the first one 10. *)
Definition four_files : World :=
  world [0; 5; 15; 20; 22; 30; 33; 40; 44; 50]%float
    ["Florianopolis_MIROC5_rcp45.csv"; "Florianopolis_MIROC5_rcp85.csv";
     "Florianopolis_Notes_rcp45.txt"; "Florianopolis_HadGEM2_rcp85.csv"].

Definition one_file : World :=
  world [0; 5; 15; 20]%float ["Florianopolis_MIROC5_rcp45.csv"].

Definition no_file : World := world [0; 5]%float [].

(** The second file's results cannot be parsed. *)
Definition broken_results : World :=
  world [0; 5; 15; 20; 22; 30]%float
    ["Florianopolis_MIROC5_rcp45.csv"; "Florianopolis_Broken_rcp45.csv";
     "Florianopolis_MIROC5_rcp85.csv"].

(** Netuno exits by itself two seconds after its launch. *)
Definition short_lived : World :=
  mkWorld [] [] (Some 2) 0 false.



Definition first_file : Path := entry "Florianopolis_MIROC5_rcp45.csv".

Definition other_files : list Path :=
  [entry "Florianopolis_MIROC5_rcp85.csv";
   entry "Florianopolis_Notes_rcp45.txt";
   entry "Florianopolis_HadGEM2_rcp85.csv"].



End Demo.

(** ** Further cases for the test double *)

Module Cases.

(** The test double with no initial date for the scenario rcp85. *)
Definition only_rcp45 : Collaborators := {|
  W := Demo.World;
  Date := string;
  Value := Z;
  Records := list Z;
  Popen := Z;
  INITIAL_DATES := <["rcp45" := "2006-01-01"]> ∅;
  NETUNO_STARTUP_WAIT_TIME := 5;
  SIMULATION_PARAMETERS := @SIMULATION_PARAMETERS Demo.collaborators;
  env_Popen := @env_Popen Demo.collaborators;
  pid := @pid Demo.collaborators;
  env_poll := @env_poll Demo.collaborators;
  env_terminate := @env_terminate Demo.collaborators;
  env_sleep := @env_sleep Demo.collaborators;
  env_perf_counter := @env_perf_counter Demo.collaborators;
  env_iterdir := @env_iterdir Demo.collaborators;
  env_validate_arguments := @env_validate_arguments Demo.collaborators;
  env_NetunoAutomator := @env_NetunoAutomator Demo.collaborators;
  env_run_first_simulation := @env_run_first_simulation Demo.collaborators;
  env_run_simulation := @env_run_simulation Demo.collaborators;
  env_get_metadata := @env_get_metadata Demo.collaborators;
  env_ResultParser := @env_ResultParser Demo.collaborators;
  env_parse_results := @env_parse_results Demo.collaborators;
  env_Exporter := @env_Exporter Demo.collaborators;
  env_save_results := @env_save_results Demo.collaborators
|}.

(** The precipitation directory given as a relative path of one
    component. *)
Definition relative_args : CommandLineArgsValidator :=
  mkArgs Demo.netuno_exe (mkPath "" ["precipitation"]) 0 false.

End Cases.

(** * Properties *)

(** ** setup_logger *)

Lemma log_level_verbose (quiet_count : Z) :
  log_level_of quiet_count true = logging.DEBUG.
Proof. reflexivity. Qed.

Lemma log_level_quiet_once : log_level_of 1 false = logging.WARNING.
Proof. reflexivity. Qed.

Lemma log_level_quiet_more (quiet_count : Z) :
  2 <= quiet_count -> log_level_of quiet_count false = logging.ERROR.
Proof.
  intros Hq. unfold log_level_of.
  destruct (Z.eqb_spec quiet_count 1) as [->|_]; [lia|].
  destruct (Z.geb_spec quiet_count 2); [reflexivity|lia].
Qed.

Lemma log_level_not_quiet (quiet_count : Z) :
  quiet_count <= 0 -> log_level_of quiet_count false = logging.INFO.
Proof.
  intros Hq. unfold log_level_of.
  destruct (Z.eqb_spec quiet_count 1) as [->|_]; [lia|].
  destruct (Z.geb_spec quiet_count 2); [lia|reflexivity].
Qed.

Lemma setup_logger_level logger quiet_count verbose :
  logging.getEffectiveLevel (setup_logger logger quiet_count verbose)
  = log_level_of quiet_count verbose.
Proof.
  unfold logging.getEffectiveLevel, setup_logger, log_level_of. simpl.
  destruct verbose; [reflexivity|].
  destruct (quiet_count =? 1); [reflexivity|].
  destruct (quiet_count >=? 2); reflexivity.
Qed.

(** ** statistics.mean *)

Lemma mean_empty : mean [] = Raise StatisticsError.
Proof. reflexivity. Qed.

Lemma mean_example : mean [2; 3; 4]%float = Ok 3%float.
Proof. reflexivity. Qed.

(** The mean is rounded once, from the exact sum: the mean of the floats
    nearest to 0.1 and 0.2 is the float nearest to 0.15000000000000002. *)
Example mean_rounds_once :
  mean [0x1.999999999999ap-4; 0x1.999999999999ap-3]%float
  = Ok 0x1.3333333333334p-3%float.
Proof. reflexivity. Qed.

Example mean_of_tiny :
  mean [0x1p-1074; 0]%float = Ok 0%float.
Proof. reflexivity. Qed.

Example mean_with_infinity :
  mean [1.5; infinity; 2; infinity]%float = Ok infinity /\
  mean [infinity; 1; neg_infinity]%float = Ok nan.
Proof. split; reflexivity. Qed.

Lemma mean_nonempty data : data <> [] -> mean data = Ok (mean_of_floats data).
Proof. destruct data; [congruence|reflexivity]. Qed.

(** ** pathlib *)

Lemma parent_drops_last anchor0 init last0 :
  parent (mkPath anchor0 (init ++ [last0])) = mkPath anchor0 init.
Proof.
  unfold parent. simpl. destruct (init ++ [last0]) eqn:E.
  - destruct init; discriminate.
  - rewrite <- E, removelast_last. reflexivity.
Qed.

Lemma parent_parent anchor0 init dir_name sub_name :
  parent (parent (mkPath anchor0 (init ++ [dir_name; sub_name])))
  = mkPath anchor0 init.
Proof.
  change (init ++ [dir_name; sub_name]) with (init ++ [dir_name] ++ [sub_name]).
  rewrite app_assoc, parent_drops_last. apply parent_drops_last.
Qed.

Lemma parent_of_anchor anchor0 : parent (mkPath anchor0 []) = mkPath anchor0 [].
Proof. reflexivity. Qed.

Section Properties.
Context `{C : Collaborators}.

(** ** Inversion of the monad's operations *)

Lemma bind_inv {A B} (m : M A) (k : A -> M B) w r w' t :
  bind m k w = (r, w', t) ->
  (exists a w1 t1 t2,
      m w = (Ok a, w1, t1) /\ k a w1 = (r, w', t2) /\ t = t1 ++ t2)
  \/ (exists e, m w = (Raise e, w', t) /\ r = Raise e).
Proof.
  unfold bind. destruct (m w) as [[[a|e] w1] t1].
  - destruct (k a w1) as [[r2 w2] t2] eqn:Hk.
    intros [= <- <- <-]. left. eauto 10.
  - intros [= <- <- <-]. right. eauto.
Qed.

Lemma call_inv {A} (f : W -> result A * W) ev w r w' t :
  call f ev w = (r, w', t) -> f w = (r, w') /\ t = [ev r].
Proof. unfold call. destruct (f w) as [r1 w1]. intros [= <- <- <-]. auto. Qed.

Lemma perf_counter_inv w r w' t :
  time_perf_counter w = (r, w', t) ->
  exists now, env_perf_counter w = (now, w') /\ r = Ok now /\ t = [EClock now].
Proof.
  unfold time_perf_counter. destruct (env_perf_counter w) as [now w1].
  intros [= <- <- <-]. eauto.
Qed.

Ltac inv_prim H :=
  first
  [ apply perf_counter_inv in H; destruct H as (? & ? & ? & ?)
  | apply call_inv in H; destruct H as [? ?]
  | unfold emit, ret, raise, iterdir, statistics_mean in H ];
  simplify_eq.

Ltac inv_bind H tac :=
  let H1 := fresh "Hm" in
  let H2 := fresh "Hk" in
  apply bind_inv in H;
  destruct H as [(? & ? & ? & ? & H1 & H2 & ?)|(? & H1 & ?)];
  [ tac H1; tac H2 | tac H1 ].

Ltac unfold_head H :=
  unfold run_netuno, Exporter, ResultParser, subprocess_Popen, time_sleep,
    logger_debug, logger_info, NetunoAutomator, get_metadata, initial_date,
    run_first_simulation, run_simulation, parse_results, save_results,
    terminate in H.

(** Splits a run of the script, given as [H : m w = (r, w', t)], into one
    goal per path through [m]; a run of the loop is left as it is. *)
Ltac run H :=
  lazymatch type of H with
  | bind _ _ _ = _ => inv_bind H run
  | main_loop _ _ _ _ = _ => idtac
  | next ?it _ = _ => destruct it; unfold next, ret, raise in H; simplify_eq
  | (match ?x with _ => _ end) _ = _ => destruct x; run H
  | _ => first [ progress unfold_head H; run H | inv_prim H ]
  end.

(** Normal form of an observation of a trace that ends in appends. *)
Ltac observe :=
  unfold stages, run_first_calls, run_simulation_calls, terminate_calls,
    launched, listings, parameter_applications, reported_means,
    reported_first_durations, export_roots, export_keys, extracted_keys in *;
  rewrite ?forallb_app, ?omap_app in *; simpl in *.

(** ** Observations distribute over a trace *)

Lemma omap_silent {A} (f : Event -> option A) (t : list Event) :
  (forall e, loop_event e = true -> f e = None) ->
  forallb loop_event t = true -> omap f t = [].
Proof.
  intros Hf. induction t as [|e t IH]; simpl; [reflexivity|].
  intros [He Ht]%andb_true_iff. rewrite (Hf e He). auto.
Qed.

(** ** The loop *)

Lemma loop_events exporter files : forall durations w r w' t,
  main_loop exporter files durations w = (r, w', t) ->
  forallb loop_event t = true.
Proof.
  induction files as [|file files IH]; intros durations w r w' t H; simpl in H.
  - unfold ret in H. simplify_eq. reflexivity.
  - run H; try reflexivity.
    simpl. eauto.
Qed.

(** A run of the loop returns exactly when every call it made returned. *)
Lemma loop_returned exporter files : forall durations w r w' t,
  main_loop exporter files durations w = (r, w', t) ->
  forallb returned t = is_ok r.
Proof.
  induction files as [|file files IH]; intros durations w r w' t H; simpl in H.
  - unfold ret in H. simplify_eq. reflexivity.
  - run H; try reflexivity.
    simpl. eauto.
Qed.

(** The loop takes the files in order, extracting the metadata of each
    and then running it, and stops at the first call that raises. *)
Lemma loop_stages exporter files : forall durations w r w' t,
  main_loop exporter files durations w = (r, w', t) ->
  stages t `prefix_of` cycles files /\
  (is_ok r = true -> stages t = cycles files).
Proof.
  induction files as [|file files IH]; intros durations w r w' t H; simpl in H.
  - unfold ret in H. simplify_eq. split; [apply prefix_nil|reflexivity].
  - run H; simpl;
      try (split; [repeat apply prefix_cons; apply prefix_nil|discriminate]).
    match goal with
    | Hloop : main_loop _ _ _ _ = _ |- _ =>
        destruct (IH _ _ _ _ _ Hloop) as [Hp He]
    end.
    split.
    + do 2 apply prefix_cons. exact Hp.
    + intros Hr. rewrite (He Hr). reflexivity.
Qed.

Lemma stages_run_first_calls t :
  run_first_calls t
  = omap (fun s => match s with FirstRun f => Some f | _ => None end) (stages t).
Proof.
  unfold run_first_calls, stages.
  induction t as [|e t IH]; [reflexivity|].
  destruct e; simpl; first [exact IH | f_equal; exact IH].
Qed.

Lemma stages_run_simulation_calls t :
  run_simulation_calls t
  = omap (fun s => match s with NextRun f => Some f | _ => None end) (stages t).
Proof.
  unfold run_simulation_calls, stages.
  induction t as [|e t IH]; [reflexivity|].
  destruct e; simpl; first [exact IH | f_equal; exact IH].
Qed.

Lemma cycles_next_runs files :
  omap (fun s => match s with NextRun f => Some f | _ => None end) (cycles files)
  = files.
Proof. induction files as [|f files IH]; simpl; [reflexivity|]. f_equal. exact IH. Qed.

Lemma cycles_first_runs files :
  omap (fun s => match s with FirstRun f => Some f | _ => None end) (cycles files)
  = [].
Proof. induction files as [|f files IH]; simpl; [reflexivity|]. exact IH. Qed.

(** What the loop never does. *)
Lemma loop_silent exporter files durations w r w' t :
  main_loop exporter files durations w = (r, w', t) ->
  omap listing_of t = [] /\ omap terminated_process t = [] /\
  omap launched_process t = [] /\ omap applied_parameters t = [] /\
  omap completed_average t = [] /\ omap first_elapsed t = [] /\
  omap run_first_file t = [].
Proof.
  intros H%loop_events.
  repeat split; apply omap_silent; try exact H;
    intros [] ?; try discriminate; try reflexivity;
    destruct m; try discriminate; reflexivity.
Qed.

(** Brings what is known of a run of the loop into the goal. *)
Ltac loop_facts H :=
  let Hs := fresh "Hsilent" in
  pose proof (loop_silent _ _ _ _ _ _ _ H) as Hs;
  destruct Hs as (Hlistings & Hterminate & Hlaunched & Hparameters & Hmeans
                  & Hfirst & Hrunfirst);
  pose proof (loop_returned _ _ _ _ _ _ _ H) as Hreturned;
  pose proof (loop_stages _ _ _ _ _ _ _ H) as [Hprefix Hstages].

Ltac loop_known :=
  try match goal with
      | Hloop : main_loop _ _ _ _ = _ |- _ => loop_facts Hloop
      end.

(** The loop appends one duration per file. *)
Lemma loop_durations_length exporter files : forall durations w durations' w' t,
  main_loop exporter files durations w = (Ok durations', w', t) ->
  length durations' = (length durations + length files)%nat.
Proof.
  induction files as [|file files IH]; intros durations w durations' w' t H;
    simpl in H.
  - unfold ret in H. simplify_eq. simpl. lia.
  - run H.
    match goal with
    | Hloop : main_loop _ _ _ _ = _ |- _ => apply IH in Hloop; rewrite Hloop
    end.
    rewrite length_app. simpl. lia.
Qed.

(** ** main: which files reach which stage *)

Lemma main_stages args w r w' t first rest :
  main args w = (r, w', t) ->
  forallb returned t = true ->
  listings t = [first :: rest] ->
  stages t = Extracted first :: FirstRun first :: cycles rest.
Proof.
  intros H. unfold main in H. run H; loop_known; observe;
    try (intros; congruence).
  all: intros _ HL; rewrite Hlistings in HL; simplify_eq; rewrite app_nil_r.
  all: rewrite Hstages; reflexivity.
Qed.

Lemma main_empty_directory args w r w' t :
  main args w = (r, w', t) ->
  listings t = [[]] ->
  r = Raise StopIteration /\ stages t = [] /\ length (launched t) = 1%nat.
Proof.
  intros H. unfold main in H. run H; loop_known; observe;
    try (intros; congruence).
  all: try (rewrite Hlistings; discriminate).
  all: auto.
Qed.

Lemma main_stages_prefix args w r w' t first rest :
  main args w = (r, w', t) ->
  listings t = [first :: rest] ->
  stages t `prefix_of` Extracted first :: FirstRun first :: cycles rest.
Proof.
  intros H. unfold main in H. run H; loop_known; observe;
    try (intros; congruence).
  all: try (intros HL; rewrite Hlistings in HL; simplify_eq;
            rewrite ?app_nil_r; do 2 apply prefix_cons; exact Hprefix).
  all: intros HL; simplify_eq; repeat apply prefix_cons; apply prefix_nil.
Qed.

Lemma omap_prefix {A B} (f : A -> option B) (l1 l2 : list A) :
  l1 `prefix_of` l2 -> omap f l1 `prefix_of` omap f l2.
Proof. intros [k ->]. rewrite omap_app. by apply prefix_app_r. Qed.

Lemma stages_first_run_once t first rest :
  stages t = Extracted first :: FirstRun first :: cycles rest ->
  run_first_calls t = [first] /\ run_simulation_calls t = rest.
Proof.
  intros Hs. rewrite stages_run_first_calls, stages_run_simulation_calls, Hs.
  simpl. rewrite cycles_first_runs, cycles_next_runs. auto.
Qed.

Lemma stages_first_run_at_most_once t first rest :
  stages t `prefix_of` Extracted first :: FirstRun first :: cycles rest ->
  run_first_calls t `prefix_of` [first] /\
  run_simulation_calls t `prefix_of` rest.
Proof.
  intros Hp. rewrite stages_run_first_calls, stages_run_simulation_calls. split.
  - eapply omap_prefix in Hp. simpl in Hp. rewrite cycles_first_runs in Hp.
    exact Hp.
  - eapply omap_prefix in Hp. simpl in Hp. rewrite cycles_next_runs in Hp.
    exact Hp.
Qed.

(** C1: when the iteration of the input directory yields [first :: rest]
    (N >= 1 entries), [main] calls [run_first_simulation] on [first] only
    and at most once, and [run_simulation] on the entries of [rest] only,
    in iteration order and each at most once; in an execution in which no
    call raises, [run_first_simulation] is called exactly once, on [first],
    and [run_simulation] exactly N-1 times, once per entry of [rest]. *)
Theorem main_first_run_once_then_rest args w first rest :
  listings (trace_of (main args w)) = [first :: rest] ->
  run_first_calls (trace_of (main args w)) `prefix_of` [first] /\
  run_simulation_calls (trace_of (main args w)) `prefix_of` rest /\
  (forallb returned (trace_of (main args w)) = true ->
   run_first_calls (trace_of (main args w)) = [first] /\
   run_simulation_calls (trace_of (main args w)) = rest /\
   length (run_first_calls (trace_of (main args w))) = 1%nat /\
   length (run_simulation_calls (trace_of (main args w)))
   = (length (first :: rest) - 1)%nat).
Proof.
  destruct (main args w) as [[r w'] t] eqn:H. unfold trace_of. simpl.
  intros HL.
  destruct (stages_first_run_at_most_once t first rest
              (main_stages_prefix _ _ _ _ _ _ _ H HL)) as [Hf Hn].
  split; [exact Hf|]. split; [exact Hn|].
  intros Hret.
  destruct (stages_first_run_once t first rest
              (main_stages _ _ _ _ _ _ _ H Hret HL)) as [-> ->].
  repeat split. simpl. lia.
Qed.

(** C10: the entries of the input directory are processed exactly as the
    iteration yields them, in that order, none skipped and none filtered
    by its name: the calls to metadata extraction and to the simulation
    runs follow the entries (for the first entry, extraction then the first
    run; for each further entry in turn, extraction then a subsequent run)
    up to the first call that raises, and through all the entries when no
    call raises. *)
Theorem main_processes_entries_in_iteration_order args w entries :
  listings (trace_of (main args w)) = [entries] ->
  stages (trace_of (main args w))
    `prefix_of` match entries with
                | [] => []
                | first :: rest => Extracted first :: FirstRun first :: cycles rest
                end /\
  (forallb returned (trace_of (main args w)) = true ->
   stages (trace_of (main args w))
   = match entries with
     | [] => []
     | first :: rest => Extracted first :: FirstRun first :: cycles rest
     end).
Proof.
  destruct (main args w) as [[r w'] t] eqn:H. unfold trace_of. simpl.
  intros HL. destruct entries as [|first rest].
  - destruct (main_empty_directory _ _ _ _ _ H HL) as (_ & -> & _).
    split; [apply prefix_nil|reflexivity].
  - split.
    + exact (main_stages_prefix _ _ _ _ _ _ _ H HL).
    + intros Hret. exact (main_stages _ _ _ _ _ _ _ H Hret HL).
Qed.

(** ** main: teardown *)








(** ** main: an empty directory, a single file *)

(** C3, as the code has it: when the iteration of the input directory
    yields nothing, [main] fails with [StopIteration], which
    [next(path_iterator)] raises, and calls neither
    [run_first_simulation] nor [run_simulation] (nor metadata extraction);
    Netuno has been launched by then. *)
Theorem main_empty_directory_stops args w :
  listings (trace_of (main args w)) = [[]] ->
  outcome_of (main args w) = Raise StopIteration /\
  run_first_calls (trace_of (main args w)) = [] /\
  run_simulation_calls (trace_of (main args w)) = [] /\
  stages (trace_of (main args w)) = [] /\
  length (launched (trace_of (main args w))) = 1%nat.
Proof.
  destruct (main args w) as [[r w'] t] eqn:H. unfold trace_of, outcome_of. simpl.
  intros HL. destruct (main_empty_directory _ _ _ _ _ H HL) as (-> & Hs & Hl).
  rewrite stages_run_first_calls, stages_run_simulation_calls, Hs. auto.
Qed.

Lemma main_single_file args w r w' t file :
  main args w = (r, w', t) ->
  forallb returned t = true ->
  listings t = [[file]] ->
  r = Raise StatisticsError /\ reported_means t = [] /\ terminate_calls t = [] /\
  stages t = [Extracted file; FirstRun file].
Proof.
  intros H. unfold main in H. run H; loop_known; observe;
    try (intros; congruence).
  - intros _ HL. rewrite Hlistings in HL. simplify_eq.
    match goal with
    | Hloop : main_loop _ [] _ _ = _, Hmean : mean _ = _ |- _ =>
        simpl in Hloop; unfold ret in Hloop; simplify_eq
    end.
  - intros _ HL. rewrite Hlistings in HL. simplify_eq.
    match goal with
    | Hloop : main_loop _ [] _ _ = _, Hmean : mean _ = _ |- _ =>
        simpl in Hloop; unfold ret in Hloop; simplify_eq
    end.
    simpl in *. simplify_eq. auto.
Qed.

(** C5, what the code does: when the directory yields exactly one entry
    and no call raises, the first run is made, then the summary raises
    [StatisticsError] (the mean of no durations); no summary is logged and
    [terminate] is not called. *)
Theorem main_single_file_summary_raises args w file :
  listings (trace_of (main args w)) = [[file]] ->
  forallb returned (trace_of (main args w)) = true ->
  outcome_of (main args w) = Raise StatisticsError /\
  run_first_calls (trace_of (main args w)) = [file] /\
  reported_means (trace_of (main args w)) = [] /\
  terminate_calls (trace_of (main args w)) = [].
Proof.
  destruct (main args w) as [[r w'] t] eqn:H. unfold trace_of, outcome_of. simpl.
  intros HL Hret.
  destruct (main_single_file _ _ _ _ _ _ H Hret HL) as (-> & Hm & Ht & Hs).
  rewrite stages_run_first_calls, Hs. auto.
Qed.

(** ** main: durations *)

Lemma cycle_state_app is_run t1 : forall st t2,
  cycle_state is_run st (t1 ++ t2)
  = cycle_state is_run (cycle_state is_run st t1) t2.
Proof. induction t1 as [|e t1 IH]; intros st t2; simpl; auto. Qed.

Lemma cycle_durations_app is_run t1 : forall st t2,
  cycle_durations is_run st (t1 ++ t2)
  = cycle_durations is_run st t1
    ++ cycle_durations is_run (cycle_state is_run st t1) t2.
Proof.
  induction t1 as [|e t1 IH]; intros st t2; simpl; [reflexivity|].
  rewrite IH, app_assoc. reflexivity.
Qed.

(** The loop makes no first run: it leaves the first cycle alone. *)
Lemma first_cycle_silent t : forall l s,
  forallb loop_event t = true ->
  cycle_durations is_run_first (mkTimer l s false false) t = [] /\
  ran (cycle_state is_run_first (mkTimer l s false false) t) = false /\
  exported (cycle_state is_run_first (mkTimer l s false false) t) = false.
Proof.
  induction t as [|e t IH]; intros l s; simpl; [auto|].
  intros [He Ht]%andb_true_iff.
  destruct e; try discriminate; simpl; auto.
Qed.

(** The list the loop returns is the list it was given followed by the
    duration of each file's cycle, in order. *)
Lemma loop_cycle_durations exporter files :
  forall durations w durations' w' t l s,
  main_loop exporter files durations w = (Ok durations', w', t) ->
  durations'
  = durations ++ cycle_durations is_run_simulation (mkTimer l s false false) t /\
  ran (cycle_state is_run_simulation (mkTimer l s false false) t) = false /\
  exported (cycle_state is_run_simulation (mkTimer l s false false) t) = false.
Proof.
  induction files as [|file files IH];
    intros durations w durations' w' t l s H; simpl in H.
  - unfold ret in H. simplify_eq. simpl. rewrite app_nil_r. auto.
  - run H.
    match goal with
    | Hloop : main_loop _ _ _ _ = _ |- _ =>
        eapply IH in Hloop; destruct Hloop as (-> & Hran & Hexp)
    end.
    simpl. rewrite <- app_assoc. simpl. split; [reflexivity|].
    split; [exact Hran|exact Hexp].
Qed.

(** Forgets a timer that is known to be closed. *)
Ltac closed_timers :=
  repeat match goal with
         | Hr : ran ?st = false, He : exported ?st = false |- _ =>
             is_var st; destruct st; simpl in Hr, He; subst
         | Hr : ran (cycle_state ?f ?st ?tl) = false |- _ =>
             let x := fresh "timer" in
             remember (cycle_state f st tl) as x
         end.

Lemma main_reported_mean args w r w' t average :
  main args w = (r, w', t) ->
  reported_means t = [average] ->
  mean (subsequent_durations t) = Ok average /\
  length (subsequent_durations t) = length (run_simulation_calls t) /\
  reported_first_durations t = first_durations t /\
  length (first_durations t) = 1%nat.
Proof.
  intros H. unfold main in H. run H; loop_known; observe;
    rewrite ?Hmeans; try discriminate.
  intros [= <-].
  unfold subsequent_durations, first_durations, idle. simpl.
  match goal with
  | Hloop : main_loop _ _ _ _ = (_, _, ?tl)
    |- context [cycle_durations is_run_simulation
                  (mkTimer ?l ?s false false) (?tl ++ _)] =>
      pose proof (loop_events _ _ _ _ _ _ _ Hloop) as Hev;
      pose proof (loop_durations_length _ _ _ _ _ _ _ Hloop) as Hlen;
      destruct (loop_cycle_durations _ _ _ _ _ _ _ l s Hloop)
        as (Hds & Hran & Hexp);
      destruct (first_cycle_silent _ l s Hev) as (Hf & Hfran & Hfexp)
  end.
  simpl in Hds, Hlen. rewrite !cycle_durations_app, <- Hds, Hf.
  closed_timers. simpl.
  rewrite !app_nil_r, Hfirst.
  repeat split; try assumption.
  match goal with
  | |- context [omap run_simulation_file ?tl] => fold (run_simulation_calls tl)
  end.
  rewrite stages_run_simulation_calls. unfold stages.
  rewrite Hstages by reflexivity. rewrite cycles_next_runs. exact Hlen.
Qed.

(** C4: the mean that the final summary is given is [statistics.mean] of
    the durations of exactly the non-first iterations, one per
    [run_simulation] call, each the float difference between the clock
    reading after the export and the one before the metadata extraction of
    that iteration; the duration of the first iteration is not among them
    and goes to a [logger.info] call of its own.  For the durations 2.0,
    3.0 and 4.0 the mean is 3.0. *)
Theorem main_reports_mean_of_subsequent_durations args w average :
  reported_means (trace_of (main args w)) = [average] ->
  mean (subsequent_durations (trace_of (main args w))) = Ok average /\
  average = mean_of_floats (subsequent_durations (trace_of (main args w))) /\
  length (subsequent_durations (trace_of (main args w)))
  = length (run_simulation_calls (trace_of (main args w))) /\
  reported_first_durations (trace_of (main args w))
  = first_durations (trace_of (main args w)) /\
  length (first_durations (trace_of (main args w))) = 1%nat /\
  mean [2; 3; 4]%float = Ok 3%float.
Proof.
  destruct (main args w) as [[r w'] t] eqn:H. unfold trace_of. simpl.
  intros Hm.
  destruct (main_reported_mean _ _ _ _ _ _ H Hm) as (Hmean & Hlen & Hf & Hf1).
  repeat split; try assumption.
  destruct (subsequent_durations t); [discriminate|].
  simpl in Hmean. congruence.
Qed.

(** ** main: simulation parameters *)

Lemma session_after_app t1 : forall cfg t2,
  session_after cfg (t1 ++ t2) = session_after (session_after cfg t1) t2.
Proof. induction t1 as [|e t1 IH]; intros cfg t2; simpl; auto. Qed.

Lemma run_configurations_app t1 : forall cfg t2,
  run_configurations cfg (t1 ++ t2)
  = run_configurations cfg t1 ++ run_configurations (session_after cfg t1) t2.
Proof.
  induction t1 as [|e t1 IH]; intros cfg t2; simpl; [reflexivity|].
  destruct e; simpl; rewrite IH; reflexivity.
Qed.

(** The loop leaves the session's configuration as it found it: each of
    its runs is made under that configuration. *)
Lemma loop_configurations t : forall cfg,
  forallb loop_event t = true ->
  session_after cfg t = cfg /\
  run_configurations cfg t = replicate (length (run_simulation_calls t)) cfg.
Proof.
  induction t as [|e t IH]; intros cfg; simpl; [auto|].
  intros [He Ht]%andb_true_iff. destruct (IH cfg Ht) as [Hs Hr].
  destruct e; try discriminate; simpl; auto.
  split; [assumption|]. unfold run_simulation_calls in *. simpl. by f_equal.
Qed.

Lemma main_configurations args w r w' t :
  main args w = (r, w', t) ->
  parameter_applications t `prefix_of` [SIMULATION_PARAMETERS] /\
  run_configurations None t
  = replicate (length (run_simulation_calls t)) (Some SIMULATION_PARAMETERS).
Proof.
  intros H. unfold main in H. run H; loop_known; observe;
    rewrite ?Hparameters;
    try (split; [first [apply prefix_nil | reflexivity] | reflexivity]).
  all: match goal with
       | Hloop : main_loop _ _ _ _ = _ |- _ =>
           pose proof (loop_events _ _ _ _ _ _ _ Hloop) as Hev
       end.
  all: rewrite ?run_configurations_app, ?length_app.
  all: destruct (loop_configurations _ (Some SIMULATION_PARAMETERS) Hev) as [Hs Hr].
  all: rewrite ?Hs, ?Hr.
  all: simpl; rewrite ?app_nil_r, ?Nat.add_0_r; split; reflexivity.
Qed.

Lemma parameter_applications_length t :
  length (parameter_applications t) = length (run_first_calls t).
Proof.
  unfold parameter_applications, run_first_calls.
  induction t as [|e t IH]; [reflexivity|]. destruct e; simpl; auto.
Qed.

(** C6: the parameter mapping is handed to the automator by the first-run
    call only, whole and at most once, and every [run_simulation] call,
    which carries a file and a start date only, is made on a session whose
    configuration is the one the first run applied,
    [SIMULATION_PARAMETERS]; in an execution where the directory yields
    [first :: rest] and no call raises, the mapping is handed over exactly
    once, by the first-run call on [first], and each of the calls on the
    entries of [rest] runs under it. *)
Theorem main_applies_parameters_once args w first rest :
  listings (trace_of (main args w)) = [first :: rest] ->
  parameter_applications (trace_of (main args w))
    `prefix_of` [SIMULATION_PARAMETERS] /\
  run_configurations None (trace_of (main args w))
  = replicate (length (run_simulation_calls (trace_of (main args w))))
              (Some SIMULATION_PARAMETERS) /\
  (forallb returned (trace_of (main args w)) = true ->
   parameter_applications (trace_of (main args w)) = [SIMULATION_PARAMETERS] /\
   run_first_calls (trace_of (main args w)) = [first] /\
   run_simulation_calls (trace_of (main args w)) = rest /\
   run_configurations None (trace_of (main args w))
   = replicate (length rest) (Some SIMULATION_PARAMETERS)).
Proof.
  destruct (main args w) as [[r w'] t] eqn:H. unfold trace_of. simpl.
  intros HL. destruct (main_configurations _ _ _ _ _ H) as [Hp Hc].
  split; [exact Hp|]. split; [exact Hc|].
  intros Hret.
  destruct (stages_first_run_once t first rest
              (main_stages _ _ _ _ _ _ _ H Hret HL)) as [Hf Hn].
  rewrite Hc, Hn, Hf. repeat split.
  pose proof (parameter_applications_length t) as Hlen.
  rewrite Hf in Hlen. destruct Hp as [k Hk].
  destruct (parameter_applications t) as [|p [|q ps]]; simpl in *;
    try discriminate.
  congruence.
Qed.

(** ** main: exports *)

Lemma loop_exports exporter files : forall durations w r w' t,
  main_loop exporter files durations w = (r, w', t) ->
  Forall (eq exporter) (export_roots t) /\
  export_keys t `prefix_of` extracted_keys t.
Proof.
  induction files as [|file files IH]; intros durations w r w' t H; simpl in H.
  - unfold ret in H. simplify_eq. split; [constructor|apply prefix_nil].
  - run H; observe;
      try (split; [repeat constructor
                  | first [apply prefix_nil | reflexivity]]).
    match goal with
    | Hloop : main_loop _ _ _ _ = _ |- _ =>
        destruct (IH _ _ _ _ _ Hloop) as [Hroots Hkeys]
    end.
    split; [constructor; auto|]. apply prefix_cons. exact Hkeys.
Qed.

Lemma main_exports args w r w' t :
  main args w = (r, w', t) ->
  Forall (eq (parent (parent (precipitation_dir_path args)))) (export_roots t) /\
  export_keys t `prefix_of` extracted_keys t.
Proof.
  intros H. unfold main in H. run H; observe;
    try (split; [repeat constructor
                | first [apply prefix_nil | reflexivity]]).
  all: match goal with
       | Hloop : main_loop _ _ _ _ = _ |- _ =>
           destruct (loop_exports _ _ _ _ _ _ _ Hloop) as [Hroots Hkeys]
       end.
  all: rewrite ?app_nil_r.
  all: split; [repeat constructor; assumption | apply prefix_cons; exact Hkeys].
Qed.

Lemma loop_saves exporter files : forall durations w r w' t,
  main_loop exporter files durations w = (r, w', t) ->
  is_ok r = true ->
  save_roots t = replicate (length files) exporter /\
  map Ok (export_keys t) = map env_get_metadata files.
Proof.
  induction files as [|file files IH]; intros durations w r w' t H; simpl in H.
  - unfold ret in H. simplify_eq. auto.
  - run H; try discriminate. intros Hr.
    match goal with
    | Hloop : main_loop _ _ _ _ = _ |- _ =>
        destruct (IH _ _ _ _ _ Hloop Hr) as [Hroots Hkeys]
    end.
    unfold save_roots, export_keys in *. simpl.
    match goal with
    | Hm : env_get_metadata file = _ |- _ => rewrite Hm
    end.
    split; f_equal; assumption.
Qed.

Lemma loop_no_exporter exporter files durations w r w' t :
  main_loop exporter files durations w = (r, w', t) ->
  omap exporter_root t = [].
Proof.
  intros H%loop_events. apply omap_silent; [|exact H].
  intros [] ?; try discriminate; reflexivity.
Qed.

Lemma main_saves args w r w' t :
  main args w = (r, w', t) ->
  forallb returned t = true ->
  exists entries,
    listings t = [entries] /\
    exporter_roots t = [parent (parent (precipitation_dir_path args))] /\
    save_roots t
    = replicate (length entries) (parent (parent (precipitation_dir_path args))) /\
    map Ok (export_keys t) = map env_get_metadata entries.
Proof.
  intros H. unfold main in H. run H; loop_known; observe;
    unfold exporter_roots, save_roots;
    rewrite ?omap_app, ?Hreturned; simpl; try discriminate.
  all: intros _.
  all: try match goal with
       | Hloop : main_loop _ _ _ _ = _ |- _ =>
           rewrite (loop_no_exporter _ _ _ _ _ _ _ Hloop), Hlistings;
           destruct (loop_saves _ _ _ _ _ _ _ Hloop eq_refl) as [Hroots Hkeys];
           unfold save_roots, export_keys in Hroots, Hkeys;
           rewrite Hroots
       end.
  all: eexists; split; [reflexivity|]; simpl; rewrite ?app_nil_r.
  all: repeat match goal with
       | Hm : env_get_metadata _ = _ |- _ => rewrite Hm; clear Hm
       end.
  all: repeat split; try reflexivity; f_equal; assumption.
Qed.

(** C7: the root the exporter is constructed with is the parent of the
    parent of the precipitation directory given on the command line, and
    every [save_results] call of the execution goes to that exporter; the
    key of each call is the (city, model, scenario) that metadata
    extraction returned for the file of that iteration.  In an execution in
    which no call raises, the exporter is constructed once, with that
    root, and there is one [save_results] call per entry of the directory,
    each on that exporter and under the metadata of its entry. *)
Theorem main_exports_under_grandparent args w :
  Forall (eq (parent (parent (precipitation_dir_path args))))
         (export_roots (trace_of (main args w))) /\
  export_keys (trace_of (main args w))
    `prefix_of` extracted_keys (trace_of (main args w)) /\
  (forallb returned (trace_of (main args w)) = true ->
   exists entries,
     listings (trace_of (main args w)) = [entries] /\
     exporter_roots (trace_of (main args w))
     = [parent (parent (precipitation_dir_path args))] /\
     save_roots (trace_of (main args w))
     = replicate (length entries)
                 (parent (parent (precipitation_dir_path args))) /\
     map Ok (export_keys (trace_of (main args w)))
     = map env_get_metadata entries).
Proof.
  destruct (main args w) as [[r w'] t] eqn:H. unfold trace_of. simpl.
  destruct (main_exports _ _ _ _ _ H) as [Hroots Hkeys].
  split; [exact Hroots|]. split; [exact Hkeys|].
  exact (main_saves _ _ _ _ _ H).
Qed.

(** ** The entry point *)

(** When validation raises one of the errors of the [except] clause, the
    script logs it and ends: [main] is not run. *)
Lemma script_validation_failure validator w e w1 :
  env_validate_arguments validator w = (Raise e, w1) ->
  validation_error e = true ->
  script validator w
  = (Ok tt, w1, [EValidate (Raise e); ELog (LogValidationFailed e)]).
Proof.
  intros Hv He. unfold script, validate_arguments, call. rewrite Hv, He.
  reflexivity.
Qed.

Lemma script_runs_main validator w w1 :
  env_validate_arguments validator w = (Ok tt, w1) ->
  script validator w
  = (outcome_of (main validator w1), world_of (main validator w1),
     EValidate (Ok tt) :: trace_of (main validator w1)).
Proof.
  intros Hv. unfold script, validate_arguments, call. rewrite Hv.
  destruct (main validator w1) as [[r w2] t2]. reflexivity.
Qed.

(** ** run_netuno *)

(** C8, as the code has it: [run_netuno] launches the executable, calls
    [time.sleep] with the warm-up interval and, when the sleep returns,
    returns the handle, whatever has become of the process meanwhile (it
    does not look at it).  When [subprocess.Popen] raises, that exception
    leaves [run_netuno] as it is and there is no sleep; when [time.sleep]
    raises, that exception leaves [run_netuno], the process being
    launched. *)
Theorem run_netuno_sleeps_then_returns path_to_netuno wait_after_start w :
  run_netuno path_to_netuno wait_after_start w
  = match env_Popen path_to_netuno w with
    | (Ok new_process, w1) =>
        match env_sleep wait_after_start w1 with
        | (Ok _, w2) =>
            (Ok new_process, w2,
             [EPopen path_to_netuno (Ok new_process);
              ELog (LogSpawned (pid new_process));
              ESleep wait_after_start (Ok tt)])
        | (Raise e, w2) =>
            (Raise e, w2,
             [EPopen path_to_netuno (Ok new_process);
              ELog (LogSpawned (pid new_process));
              ESleep wait_after_start (Raise e)])
        end
    | (Raise e, w1) => (Raise e, w1, [EPopen path_to_netuno (Raise e)])
    end.
Proof.
  unfold run_netuno, bind, subprocess_Popen, call.
  destruct (env_Popen path_to_netuno w) as [[new_process|e] w1]; [|reflexivity].
  unfold logger_debug, emit, time_sleep, call, ret, id.
  destruct (env_sleep wait_after_start w1) as [[[]|e] w2]; reflexivity.
Qed.

(** * Further properties of the script *)

(** Normal form of the further observations. *)
Ltac inspect :=
  unfold popen_paths, run_start_dates, missing_scenarios, run_outputs,
    parser_paths, parse_paths, parsed_records, saved_records,
    reported_iteration_durations, clock_readings, reported_totals,
    setup_calls, logged_keys, exported_keys in *;
  observe.

(** ** main: failures *)

Lemma failure_returned e : failure e = None <-> returned e = true.
Proof.
  destruct e; simpl; try tauto;
    match goal with r : result _ |- _ => destruct r end; simpl;
    split; congruence.
Qed.

Lemma loop_first_failure exporter files : forall durations w r w' t,
  main_loop exporter files durations w = (r, w', t) ->
  first_failure t = match r with Ok _ => None | Raise x => Some (x, []) end.
Proof.
  induction files as [|file files IH]; intros durations w r w' t H; simpl in H.
  - unfold ret in H. simplify_eq. reflexivity.
  - run H; try reflexivity.
    simpl. eauto.
Qed.

Lemma main_first_failure args w r w' t :
  main args w = (r, w', t) ->
  forallb returned t = false ->
  exists x, first_failure t = Some (x, []) /\ r = Raise x.
Proof.
  intros H. unfold main in H. run H; loop_known; observe;
    rewrite ?Hreturned; try discriminate; intros _; eauto.
  match goal with
  | Hloop : main_loop _ _ _ _ = _ |- _ =>
      rewrite (loop_first_failure _ _ _ _ _ _ _ Hloop)
  end.
  eauto.
Qed.

(** X1: [main] is fail-fast.  When a call of the execution raises, that
    call is the last thing [main] does (no call precedes it that raised,
    none follows it) and its exception is the one that leaves [main]. *)
Theorem main_stops_at_first_failure args w :
  forallb returned (trace_of (main args w)) = false ->
  exists x,
    first_failure (trace_of (main args w)) = Some (x, []) /\
    outcome_of (main args w) = Raise x.
Proof.
  destruct (main args w) as [[r w'] t] eqn:H. unfold trace_of, outcome_of. simpl.
  exact (main_first_failure _ _ _ _ _ H).
Qed.

Lemma main_normal_return args w w' t :
  main args w = (Ok tt, w', t) ->
  forallb returned t = true /\
  exists first second rest, listings t = [first :: second :: rest].
Proof.
  intros H. unfold main in H. run H; simplify_eq; loop_known; observe.
  rewrite Hreturned, Hlistings. split; [reflexivity|].
  match goal with
  | Hloop : main_loop _ ?l _ _ = (Ok ?ds, _, _), Hmean : mean ?ds = Ok _ |- _ =>
      apply loop_durations_length in Hloop; destruct l as [|second rest];
      [destruct ds; simpl in *; [discriminate|lia] | eauto]
  end.
Qed.

(** X2: [main] returns normally only from an execution in which no call
    raised and the directory yielded at least two entries. *)
Theorem main_returns_only_with_two_entries args w :
  outcome_of (main args w) = Ok tt ->
  forallb returned (trace_of (main args w)) = true /\
  exists first second rest,
    listings (trace_of (main args w)) = [first :: second :: rest].
Proof.
  destruct (main args w) as [[r w'] t] eqn:H. unfold trace_of, outcome_of. simpl.
  intros ->. exact (main_normal_return _ _ _ _ H).
Qed.

(** ** main: the launch *)

Lemma main_launch_prefix args w r w' t :
  main args w = (r, w', t) ->
  existsb automation t = true ->
  exists t0 process rest,
    t = EClock t0
        :: EPopen (netuno_exe_path args) (Ok process)
        :: ELog (LogSpawned (pid process))
        :: ESleep NETUNO_STARTUP_WAIT_TIME (Ok tt)
        :: rest.
Proof.
  intros H. unfold main in H. run H; simpl; try discriminate; intros _.
  all: repeat match goal with u : unit |- _ => destruct u end.
  all: do 3 eexists; reflexivity.
Qed.

(** X3: no automation before the warm-up.  In an execution that reaches the
    automator (its construction or any run call), the first calls of [main]
    are the launch of the executable given on the command line, which
    succeeded, and the sleep of NETUNO_STARTUP_WAIT_TIME seconds, which
    completed. *)
Theorem main_automates_after_warm_up args w :
  existsb automation (trace_of (main args w)) = true ->
  exists t0 process rest,
    trace_of (main args w)
    = EClock t0
      :: EPopen (netuno_exe_path args) (Ok process)
      :: ELog (LogSpawned (pid process))
      :: ESleep NETUNO_STARTUP_WAIT_TIME (Ok tt)
      :: rest.
Proof.
  destruct (main args w) as [[r w'] t] eqn:H. unfold trace_of. simpl.
  exact (main_launch_prefix _ _ _ _ _ H).
Qed.

Lemma loop_no_popen exporter files durations w r w' t :
  main_loop exporter files durations w = (r, w', t) ->
  omap popen_path t = [].
Proof.
  intros H%loop_events. apply omap_silent; [|exact H].
  intros [] ?; try discriminate; reflexivity.
Qed.

Lemma main_single_process args w r w' t :
  main args w = (r, w', t) ->
  popen_paths t = [netuno_exe_path args] /\
  (length (launched t) <= 1)%nat /\
  terminate_calls t `prefix_of` launched t.
Proof.
  intros H. unfold main in H. run H; loop_known; inspect;
    try match goal with
        | Hloop : main_loop _ _ _ _ = _ |- _ =>
            rewrite (loop_no_popen _ _ _ _ _ _ _ Hloop)
        end;
    rewrite ?Hlaunched, ?Hterminate; simpl;
    (split; [reflexivity|]); (split; [lia|]);
    first [apply prefix_nil | reflexivity].
Qed.

(** X4: one process per execution.  [main] calls [subprocess.Popen]
    exactly once, on the executable given on the command line, launches at
    most one process, and calls [terminate] on no process other than the
    one it launched, at most once. *)
Theorem main_launches_one_process args w :
  popen_paths (trace_of (main args w)) = [netuno_exe_path args] /\
  (length (launched (trace_of (main args w))) <= 1)%nat /\
  terminate_calls (trace_of (main args w))
    `prefix_of` launched (trace_of (main args w)).
Proof.
  destruct (main args w) as [[r w'] t] eqn:H. unfold trace_of. simpl.
  exact (main_single_process _ _ _ _ _ H).
Qed.

(** ** main: start dates *)

Ltac dated :=
  unfold expected_start_date; simpl;
  repeat match goal with
         | Hm : env_get_metadata _ = _ |- _ => rewrite Hm
         end;
  assumption.

Lemma loop_start_dates exporter files : forall durations w r w' t,
  main_loop exporter files durations w = (r, w', t) ->
  Forall (fun fd => expected_start_date fd.1 = Ok fd.2) (run_start_dates t).
Proof.
  induction files as [|file files IH]; intros durations w r w' t H; simpl in H.
  - unfold ret in H. simplify_eq. constructor.
  - run H; inspect; try (repeat constructor; dated).
    constructor; [dated|]. eapply IH; eauto.
Qed.

Lemma main_start_dates args w r w' t :
  main args w = (r, w', t) ->
  Forall (fun fd => expected_start_date fd.1 = Ok fd.2) (run_start_dates t).
Proof.
  intros H. unfold main in H. run H; inspect; try (repeat constructor; dated).
  all: constructor; [dated|].
  all: rewrite ?app_nil_r; eapply loop_start_dates; eauto.
Qed.

(** X5: every run call, first or subsequent, is given the start date that
    [INITIAL_DATES] holds for the scenario extracted from the name of the
    very file it runs. *)
Theorem main_runs_with_scenario_start_date args w :
  Forall (fun fd => expected_start_date fd.1 = Ok fd.2)
         (run_start_dates (trace_of (main args w))).
Proof.
  destruct (main args w) as [[r w'] t] eqn:H. unfold trace_of. simpl.
  exact (main_start_dates _ _ _ _ _ H).
Qed.

Lemma getitem_raises d key x :
  getitem d key = Raise x -> x = KeyError key /\ d !! key = None.
Proof. unfold getitem. destruct (d !! key); [discriminate|]. intros [= <-]. auto. Qed.

Ltac ends_with :=
  first [ reflexivity | eassumption | apply suffix_cons_r; ends_with ].

Ltac key_error :=
  match goal with
  | Hg : getitem _ _ = Raise _ |- _ =>
      apply getitem_raises in Hg; destruct Hg as [-> Hnone]
  end.

Lemma loop_missing_scenario exporter files : forall durations w r w' t,
  main_loop exporter files durations w = (r, w', t) ->
  missing_scenarios t = [] \/
  exists s f c m,
    missing_scenarios t = [s] /\ r = Raise (KeyError s) /\
    INITIAL_DATES !! s = None /\
    [EGetMetadata f (Ok (c, m, s)); EInitialDate s (Raise (KeyError s))]
      `suffix_of` t.
Proof.
  induction files as [|file files IH]; intros durations w r w' t H; simpl in H.
  - unfold ret in H. simplify_eq. left. reflexivity.
  - run H; inspect; try (left; reflexivity).
    + match goal with
      | Hloop : main_loop _ _ _ _ = _ |- _ =>
          destruct (IH _ _ _ _ _ Hloop) as [Hnil|(s' & f & c & m & Hs & Hr & Hn & Hsuf)]
      end.
      * left. exact Hnil.
      * right. exists s', f, c, m. repeat split; try assumption.
        ends_with.
    + key_error. right. do 4 eexists. repeat split; try eassumption.
      ends_with.
Qed.

Lemma main_missing_scenario args w r w' t s :
  main args w = (r, w', t) ->
  missing_scenarios t = [s] ->
  INITIAL_DATES !! s = None /\ r = Raise (KeyError s) /\
  exists f c m,
    [EGetMetadata f (Ok (c, m, s)); EInitialDate s (Raise (KeyError s))]
      `suffix_of` t.
Proof.
  intros H. unfold main in H. run H; inspect; try discriminate.
  all: try match goal with
       | Hloop : main_loop _ _ _ _ = _ |- _ =>
           destruct (loop_missing_scenario _ _ _ _ _ _ _ Hloop)
             as [Hnil|(s' & f & c & m & Hs & Hr & Hn & Hsuf)];
           unfold missing_scenarios in *;
           [rewrite Hnil; discriminate|rewrite Hs]
       end.
  all: try (simplify_eq; fail).
  - intros [= <-]. simplify_eq. split; [assumption|]. split; [reflexivity|].
    exists f, c, m. ends_with.
  - key_error. intros [= <-]. split; [assumption|]. split; [reflexivity|].
    do 3 eexists. ends_with.
Qed.

(** X6: a scenario without an entry in [INITIAL_DATES] is fatal.  When the
    lookup of the start date of a file's scenario raises, the scenario has
    no entry, the exception is [KeyError] of that scenario, it leaves
    [main], and the lookup, which follows the metadata extraction of that
    file, is the last thing [main] does: the file is not run. *)
Theorem main_missing_scenario_is_fatal args w s :
  missing_scenarios (trace_of (main args w)) = [s] ->
  INITIAL_DATES !! s = None /\
  outcome_of (main args w) = Raise (KeyError s) /\
  exists f c m,
    [EGetMetadata f (Ok (c, m, s)); EInitialDate s (Raise (KeyError s))]
      `suffix_of` trace_of (main args w).
Proof.
  destruct (main args w) as [[r w'] t] eqn:H. unfold trace_of, outcome_of. simpl.
  exact (main_missing_scenario _ _ _ _ _ _ H).
Qed.

(** ** main: from a run to its export *)

Ltac chain :=
  rewrite ?app_nil_r;
  repeat apply prefix_cons;
  first [ assumption | apply prefix_nil | reflexivity ].




(** ** main: the durations handed to the logger *)

Lemma loop_reported_durations exporter files :
  forall durations w r w' t l s,
  main_loop exporter files durations w = (r, w', t) ->
  reported_iteration_durations t
  = cycle_durations is_run_simulation (mkTimer l s false false) t.
Proof.
  induction files as [|file files IH]; intros durations w r w' t l s H;
    simpl in H.
  - unfold ret in H. simplify_eq. reflexivity.
  - run H; inspect; try reflexivity.
    f_equal. eapply IH; eauto.
Qed.

Lemma main_reported_durations args w r w' t :
  main args w = (r, w', t) ->
  reported_iteration_durations t = subsequent_durations t /\
  reported_first_durations t = first_durations t.
Proof.
  intros H. unfold main in H. run H; loop_known; inspect;
    unfold subsequent_durations, first_durations, idle; simpl;
    try (split; reflexivity).
  all: match goal with
       | Hloop : main_loop _ _ _ _ = (_, _, ?tl)
         |- context [cycle_durations is_run_simulation
                       (mkTimer ?l ?s false false) _] =>
           pose proof (loop_events _ _ _ _ _ _ _ Hloop) as Hev;
           pose proof (loop_reported_durations _ _ _ _ _ _ _ l s Hloop) as Hrep;
           destruct (first_cycle_silent _ l s Hev) as (Hf & Hfran & Hfexp);
           unfold reported_iteration_durations in Hrep
       end.
  all: rewrite ?cycle_durations_app, ?Hf, ?Hfirst, <- ?Hrep.
  all: try match goal with
       | Hloop : main_loop _ _ _ _ = (Ok _, _, ?tl)
         |- context [cycle_state is_run_simulation
                       (mkTimer ?l ?s false false) ?tl] =>
           destruct (loop_cycle_durations _ _ _ _ _ _ _ l s Hloop)
             as (_ & Hran & Hexp)
       end.
  all: closed_timers; simpl; rewrite ?app_nil_r; split; reflexivity.
Qed.

(** X8: each per-iteration [logger.info] call of the loop is given the
    duration of that iteration's cycle, the float difference between the
    clock reading that follows its export and the one that precedes its
    metadata extraction; there is one such call per completed iteration and
    none for an iteration that raised.  Likewise the call for the first
    simulation is given the duration of the first cycle. *)
Theorem main_logs_each_cycle_duration args w :
  reported_iteration_durations (trace_of (main args w))
  = subsequent_durations (trace_of (main args w)) /\
  reported_first_durations (trace_of (main args w))
  = first_durations (trace_of (main args w)).
Proof.
  destruct (main args w) as [[r w'] t] eqn:H. unfold trace_of. simpl.
  exact (main_reported_durations _ _ _ _ _ H).
Qed.

(** ** main: the clock *)

Lemma loop_clock_readings exporter files : forall durations w durations' w' t,
  main_loop exporter files durations w = (Ok durations', w', t) ->
  length (clock_readings t) = (2 * length files)%nat.
Proof.
  induction files as [|file files IH]; intros durations w durations' w' t H;
    simpl in H.
  - unfold ret in H. simplify_eq. reflexivity.
  - run H. inspect.
    match goal with
    | Hloop : main_loop _ _ _ _ = _ |- _ => apply IH in Hloop
    end.
    unfold clock_readings in *. lia.
Qed.

Lemma main_total args w r w' t total :
  main args w = (r, w', t) ->
  reported_totals t = [total] ->
  exists start stop average process entries,
    head t = Some (EClock start) /\
    [EClock stop; ELog (LogCompleted total average); ETerminate process;
     ELog LogTerminated] `suffix_of` t /\
    last (clock_readings t) = Some stop /\
    total = (stop - start)%float /\
    listings t = [entries] /\
    length (clock_readings t) = (2 * length entries + 2)%nat.
Proof.
  intros H. unfold main in H. run H; loop_known; inspect;
    try match goal with
        | Hloop : main_loop _ _ _ _ = _ |- _ =>
            pose proof (loop_events _ _ _ _ _ _ _ Hloop) as Hev;
            rewrite (omap_silent completed_total _
                       ltac:(intros [] ?; try discriminate; try reflexivity;
                             destruct m; try discriminate; reflexivity) Hev)
        end;
    try discriminate.
  intros [= <-].
  match goal with
  | Hloop : main_loop _ _ _ _ = _ |- _ =>
      apply loop_clock_readings in Hloop; unfold clock_readings in Hloop
  end.
  rewrite Hlistings. do 5 eexists. split; [reflexivity|].
  split; [|split; [|split; [reflexivity|split; [reflexivity|]]]].
  - repeat apply suffix_cons_r. apply suffix_app_r. reflexivity.
  - rewrite !app_comm_cons. apply last_snoc.
  - simpl. rewrite length_app. simpl. lia.
Qed.

(** X9: the total time given to the final summary is the float difference
    between the clock reading [main] takes right before the summary and its
    very first one, which is the first thing [main] does, before it
    launches Netuno; by then [main] has read the clock 2N+2 times for a
    directory of N entries. *)
Theorem main_reports_total_time args w total :
  reported_totals (trace_of (main args w)) = [total] ->
  exists start stop average process entries,
    head (trace_of (main args w)) = Some (EClock start) /\
    [EClock stop; ELog (LogCompleted total average); ETerminate process;
     ELog LogTerminated] `suffix_of` trace_of (main args w) /\
    last (clock_readings (trace_of (main args w))) = Some stop /\
    total = (stop - start)%float /\
    listings (trace_of (main args w)) = [entries] /\
    length (clock_readings (trace_of (main args w)))
    = (2 * length entries + 2)%nat.
Proof.
  destruct (main args w) as [[r w'] t] eqn:H. unfold trace_of. simpl.
  exact (main_total _ _ _ _ _ _ H).
Qed.

(** ** main: the export root, component by component *)

Lemma parent_components p :
  anchor (parent p) = anchor p /\
  parts (parent p) = take (length (parts p) - 1) (parts p).
Proof.
  unfold parent. destruct (parts p) as [|x l] eqn:E.
  - rewrite E. auto.
  - cbn [parts anchor]. split; [reflexivity|].
    rewrite removelast_firstn_len. f_equal. simpl. lia.
Qed.

Lemma grandparent_components p :
  anchor (parent (parent p)) = anchor p /\
  parts (parent (parent p)) = take (length (parts p) - 2) (parts p).
Proof.
  destruct (parent_components p) as [Ha Hp].
  destruct (parent_components (parent p)) as [Ha' Hp'].
  split; [congruence|].
  rewrite Hp', Hp, length_take, take_take. f_equal. lia.
Qed.

(** X10: the export root keeps the anchor of the precipitation directory
    and all of its components but the last two; for a directory given with
    two components or fewer it is the bare anchor (the file system root, or
    the current directory for a relative path). *)
Theorem main_export_root_components args w :
  Forall (fun root =>
            anchor root = anchor (precipitation_dir_path args) /\
            parts root
            = take (length (parts (precipitation_dir_path args)) - 2)
                   (parts (precipitation_dir_path args)) /\
            ((length (parts (precipitation_dir_path args)) <= 2)%nat ->
             root = mkPath (anchor (precipitation_dir_path args)) []))
         (export_roots (trace_of (main args w))).
Proof.
  destruct (main args w) as [[r w'] t] eqn:H. unfold trace_of. simpl.
  destruct (main_exports _ _ _ _ _ H) as [Hroots _].
  eapply Forall_impl; [exact Hroots|].
  intros root <-.
  destruct (grandparent_components (precipitation_dir_path args)) as [Ha Hp].
  split; [exact Ha|]. split; [exact Hp|].
  intros Hshort.
  destruct (parent (parent (precipitation_dir_path args))) as [a ps].
  simpl in *. subst a. f_equal. rewrite Hp.
  replace (length (parts (precipitation_dir_path args)) - 2)%nat with 0%nat by lia.
  reflexivity.
Qed.

(** ** main: the set-up *)

Lemma loop_no_setup exporter files durations w r w' t :
  main_loop exporter files durations w = (r, w', t) ->
  omap setup_of t = [].
Proof.
  intros H%loop_events. apply omap_silent; [|exact H].
  intros [] ?; try discriminate; reflexivity.
Qed.

Lemma main_setup args w r w' t :
  main args w = (r, w', t) ->
  setup_calls t
    `prefix_of` [AutomatorBuilt;
                 ExporterBuilt (parent (parent (precipitation_dir_path args)));
                 DirectoryListed (precipitation_dir_path args)] /\
  (listings t <> [] ->
   setup_calls t
   = [AutomatorBuilt;
      ExporterBuilt (parent (parent (precipitation_dir_path args)));
      DirectoryListed (precipitation_dir_path args)]).
Proof.
  intros H. unfold main in H. run H; inspect;
    try match goal with
        | Hloop : main_loop _ _ _ _ = _ |- _ =>
            rewrite (loop_no_setup _ _ _ _ _ _ _ Hloop)
        end;
    simpl; (split; [chain|]); first [congruence | reflexivity].
Qed.

(** X15: the batch is set up once.  [main] constructs the automator, then
    the exporter (on the grandparent of the precipitation directory), then
    asks for the entries of the precipitation directory, each at most once
    and in that order, stopping at the first of them that raises; an
    execution that got the entries has done all three, exactly once. *)
Theorem main_sets_up_once args w :
  setup_calls (trace_of (main args w))
    `prefix_of` [AutomatorBuilt;
                 ExporterBuilt (parent (parent (precipitation_dir_path args)));
                 DirectoryListed (precipitation_dir_path args)] /\
  (listings (trace_of (main args w)) <> [] ->
   setup_calls (trace_of (main args w))
   = [AutomatorBuilt;
      ExporterBuilt (parent (parent (precipitation_dir_path args)));
      DirectoryListed (precipitation_dir_path args)]).
Proof.
  destruct (main args w) as [[r w'] t] eqn:H. unfold trace_of. simpl.
  exact (main_setup _ _ _ _ _ H).
Qed.

(** ** main: what is handed to the logger as finished *)

Lemma loop_logged_keys exporter files : forall durations w r w' t,
  main_loop exporter files durations w = (r, w', t) ->
  logged_keys t = exported_keys t.
Proof.
  induction files as [|file files IH]; intros durations w r w' t H; simpl in H.
  - unfold ret in H. simplify_eq. reflexivity.
  - run H; inspect; try reflexivity.
    f_equal. eapply IH; eauto.
Qed.

Lemma main_logged_keys args w r w' t :
  main args w = (r, w', t) -> logged_keys t = exported_keys t.
Proof.
  intros H. unfold main in H. run H; inspect; try reflexivity.
  all: match goal with
       | Hloop : main_loop _ _ _ _ = _ |- _ =>
           pose proof (loop_logged_keys _ _ _ _ _ _ _ Hloop) as Hkeys;
           unfold logged_keys, exported_keys in Hkeys; rewrite Hkeys
       end.
  all: reflexivity.
Qed.

(** X16: [logger.info] is called for a finished simulation exactly when
    its results were exported: the [logger.info] calls for a finished
    simulation are given, in order, the (city, model, scenario) of the
    [save_results] calls that returned, one call per such [save_results]
    call and no other. *)
Theorem main_logs_what_it_exported args w :
  logged_keys (trace_of (main args w)) = exported_keys (trace_of (main args w)).
Proof.
  destruct (main args w) as [[r w'] t] eqn:H. unfold trace_of. simpl.
  exact (main_logged_keys _ _ _ _ _ H).
Qed.

End Properties.

(** ** setup_logger *)

(** C9: the level of the configured logger is DEBUG whenever the verbose
    flag is set, whatever the quiet count; without it, WARNING for a quiet
    count of exactly 1, ERROR for a quiet count of 2 or more, and INFO for
    a quiet count of 0. *)
Theorem setup_logger_effective_level (logger : logging.Logger) :
  (forall quiet_count,
     logging.getEffectiveLevel (setup_logger logger quiet_count true)
     = logging.DEBUG) /\
  logging.getEffectiveLevel (setup_logger logger 1 false) = logging.WARNING /\
  (forall quiet_count, 2 <= quiet_count ->
     logging.getEffectiveLevel (setup_logger logger quiet_count false)
     = logging.ERROR) /\
  logging.getEffectiveLevel (setup_logger logger 0 false) = logging.INFO.
Proof.
  split; [|split; [|split]]; intros; rewrite setup_logger_level.
  - apply log_level_verbose.
  - apply log_level_quiet_once.
  - apply log_level_quiet_more. assumption.
  - apply log_level_not_quiet. lia.
Qed.

Lemma setup_logger_effective_level_witness :
  2 <= 3 /\
  logging.getEffectiveLevel (setup_logger logging.getLogger 3 true) = logging.DEBUG /\
  logging.getEffectiveLevel (setup_logger logging.getLogger 3 false) = logging.ERROR.
Proof.
  split; [lia|]. split.
  - apply (proj1 (setup_logger_effective_level logging.getLogger)).
  - apply (proj1 (proj2 (proj2 (setup_logger_effective_level logging.getLogger)))).
    lia.
Defined.

(** ** The properties on the test double *)

Lemma main_first_run_once_then_rest_witness :
  listings (trace_of (main Demo.args Demo.four_files))
  = [Demo.first_file :: Demo.other_files] /\
  forallb returned (trace_of (main Demo.args Demo.four_files)) = true /\
  run_first_calls (trace_of (main Demo.args Demo.four_files))
  = [Demo.first_file] /\
  run_simulation_calls (trace_of (main Demo.args Demo.four_files))
  = Demo.other_files.
Proof.
  split; [reflexivity|]. split; [reflexivity|].
  pose proof (main_first_run_once_then_rest (C:=Demo.collaborators)
                Demo.args Demo.four_files
                Demo.first_file Demo.other_files) as H.
  destruct H as (_ & _ & H); [reflexivity|].
  destruct H as (Hf & Hn & _); [reflexivity|].
  split; assumption.
Defined.

Lemma main_processes_entries_in_iteration_order_witness :
  listings (trace_of (main Demo.args Demo.four_files))
  = [Demo.first_file :: Demo.other_files] /\
  forallb returned (trace_of (main Demo.args Demo.four_files)) = true /\
  stages (trace_of (main Demo.args Demo.four_files))
  = [Extracted Demo.first_file; FirstRun Demo.first_file;
     Extracted (Demo.entry "Florianopolis_MIROC5_rcp85.csv");
     NextRun (Demo.entry "Florianopolis_MIROC5_rcp85.csv");
     Extracted (Demo.entry "Florianopolis_Notes_rcp45.txt");
     NextRun (Demo.entry "Florianopolis_Notes_rcp45.txt");
     Extracted (Demo.entry "Florianopolis_HadGEM2_rcp85.csv");
     NextRun (Demo.entry "Florianopolis_HadGEM2_rcp85.csv")].
Proof.
  split; [reflexivity|]. split; [reflexivity|].
  apply (main_processes_entries_in_iteration_order (C:=Demo.collaborators)
           Demo.args Demo.four_files
           (Demo.first_file :: Demo.other_files)); reflexivity.
Defined.



Example script_empty_directory :
  script Demo.args Demo.no_file
  = (Ok tt, Demo.no_file,
     [EValidate (Raise MissingInputDataError);
      ELog (LogValidationFailed MissingInputDataError)]).
Proof. reflexivity. Qed.

(** The claim of C3 fails on an empty directory: the exception is
    [StopIteration], not [MissingInputDataError]. *)
Lemma main_empty_directory_not_missing_input_data :
  listings (trace_of (main Demo.args Demo.no_file)) = [[]] /\
  outcome_of (main Demo.args Demo.no_file) = Raise StopIteration /\
  outcome_of (main Demo.args Demo.no_file) <> Raise MissingInputDataError.
Proof. repeat split. discriminate. Qed.

Lemma main_empty_directory_stops_witness :
  listings (trace_of (main Demo.args Demo.no_file)) = [[]] /\
  outcome_of (main Demo.args Demo.no_file) = Raise StopIteration /\
  run_first_calls (trace_of (main Demo.args Demo.no_file)) = [] /\
  run_simulation_calls (trace_of (main Demo.args Demo.no_file)) = [] /\
  stages (trace_of (main Demo.args Demo.no_file)) = [] /\
  length (launched (trace_of (main Demo.args Demo.no_file))) = 1%nat.
Proof.
  split; [reflexivity|].
  apply (main_empty_directory_stops (C:=Demo.collaborators)
           Demo.args Demo.no_file).
  reflexivity.
Defined.

Lemma main_reports_mean_of_subsequent_durations_witness :
  reported_means (trace_of (main Demo.args Demo.four_files)) = [3%float] /\
  subsequent_durations (trace_of (main Demo.args Demo.four_files))
  = [2; 3; 4]%float /\
  first_durations (trace_of (main Demo.args Demo.four_files)) = [10%float] /\
  mean (subsequent_durations (trace_of (main Demo.args Demo.four_files)))
  = Ok 3%float.
Proof.
  split; [reflexivity|]. split; [reflexivity|]. split; [reflexivity|].
  apply (main_reports_mean_of_subsequent_durations (C:=Demo.collaborators)
           Demo.args Demo.four_files 3%float).
  reflexivity.
Defined.

Lemma main_single_file_summary_raises_witness :
  listings (trace_of (main Demo.args Demo.one_file)) = [[Demo.first_file]] /\
  forallb returned (trace_of (main Demo.args Demo.one_file)) = true /\
  outcome_of (main Demo.args Demo.one_file) = Raise StatisticsError /\
  run_first_calls (trace_of (main Demo.args Demo.one_file))
  = [Demo.first_file] /\
  reported_means (trace_of (main Demo.args Demo.one_file)) = [] /\
  terminate_calls (trace_of (main Demo.args Demo.one_file)) = [].
Proof.
  split; [reflexivity|]. split; [reflexivity|].
  apply (main_single_file_summary_raises (C:=Demo.collaborators)
           Demo.args Demo.one_file Demo.first_file); reflexivity.
Defined.

Lemma main_applies_parameters_once_witness :
  listings (trace_of (main Demo.args Demo.four_files))
  = [Demo.first_file :: Demo.other_files] /\
  forallb returned (trace_of (main Demo.args Demo.four_files)) = true /\
  parameter_applications (trace_of (main Demo.args Demo.four_files))
  = [SIMULATION_PARAMETERS] /\
  run_first_calls (trace_of (main Demo.args Demo.four_files))
  = [Demo.first_file] /\
  run_simulation_calls (trace_of (main Demo.args Demo.four_files))
  = Demo.other_files /\
  run_configurations None (trace_of (main Demo.args Demo.four_files))
  = replicate 3 (Some SIMULATION_PARAMETERS).
Proof.
  split; [reflexivity|]. split; [reflexivity|].
  apply (main_applies_parameters_once (C:=Demo.collaborators)
           Demo.args Demo.four_files Demo.first_file Demo.other_files);
    reflexivity.
Defined.

Lemma main_exports_under_grandparent_witness :
  forallb returned (trace_of (main Demo.args Demo.four_files)) = true /\
  exists entries,
    listings (trace_of (main Demo.args Demo.four_files)) = [entries] /\
    exporter_roots (trace_of (main Demo.args Demo.four_files))
    = [parent (parent Demo.precipitation)] /\
    save_roots (trace_of (main Demo.args Demo.four_files))
    = replicate (length entries) (parent (parent Demo.precipitation)) /\
    map Ok (export_keys (trace_of (main Demo.args Demo.four_files)))
    = map env_get_metadata entries.
Proof.
  split; [reflexivity|].
  apply (proj2 (proj2 (main_exports_under_grandparent (C:=Demo.collaborators)
                         Demo.args Demo.four_files))).
  reflexivity.
Defined.

(** On the test double the export root is [C:\data], two levels above
    [C:\data\Florianopolis\precipitation]. *)
Example main_exports_under_grandparent_example :
  export_roots (trace_of (main Demo.args Demo.four_files))
  = replicate 5 (mkPath "C:\" ["data"]) /\
  save_roots (trace_of (main Demo.args Demo.four_files))
  = replicate 4 (mkPath "C:\" ["data"]) /\
  export_keys (trace_of (main Demo.args Demo.four_files))
  = [("Florianopolis", "MIROC5", "rcp45"); ("Florianopolis", "MIROC5", "rcp85");
     ("Florianopolis", "Notes", "rcp45"); ("Florianopolis", "HadGEM2", "rcp85")].
Proof. split; [|split]; reflexivity. Qed.

(** The claim of C8 fails when Netuno exits two seconds after its launch:
    at the end of the five seconds of warm-up the process has exited, and
    [run_netuno] returns its handle all the same; and a path that is not an
    executable makes it raise what [subprocess.Popen] raised. *)
Lemma run_netuno_returns_exited_process :
  env_poll 4242
    (world_of (run_netuno Demo.netuno_exe NETUNO_STARTUP_WAIT_TIME
                 Demo.short_lived)) = Some 0 /\
  outcome_of (run_netuno Demo.netuno_exe NETUNO_STARTUP_WAIT_TIME
                Demo.short_lived) = Ok 4242 /\
  outcome_of (run_netuno Demo.netuno_exe NETUNO_STARTUP_WAIT_TIME
                Demo.short_lived) <> Raise (Other "ProcessLaunchError") /\
  outcome_of (run_netuno Demo.precipitation NETUNO_STARTUP_WAIT_TIME
                Demo.short_lived) = Raise FileNotFoundError /\
  outcome_of (run_netuno Demo.precipitation NETUNO_STARTUP_WAIT_TIME
                Demo.short_lived) <> Raise (Other "ProcessLaunchError").
Proof. repeat split; discriminate. Qed.

Lemma run_netuno_sleeps_then_returns_witness :
  run_netuno Demo.netuno_exe 5 Demo.short_lived
  = (Ok 4242,
     Demo.mkWorld [] [] (Some 2) 5 false,
     [EPopen Demo.netuno_exe (Ok 4242); ELog (LogSpawned 4242);
      ESleep 5 (Ok tt)]) /\
  run_netuno Demo.netuno_exe 9223372036 Demo.short_lived
  = (Raise OverflowError, Demo.short_lived,
     [EPopen Demo.netuno_exe (Ok 4242); ELog (LogSpawned 4242);
      ESleep 9223372036 (Raise OverflowError)]).
Proof.
  split.
  - rewrite (run_netuno_sleeps_then_returns (C:=Demo.collaborators)
               Demo.netuno_exe 5 Demo.short_lived).
    reflexivity.
  - rewrite (run_netuno_sleeps_then_returns (C:=Demo.collaborators)
               Demo.netuno_exe 9223372036 Demo.short_lived).
    reflexivity.
Defined.

(** ** setup_logger: more quiet, more verbose, twice *)

(** X13: the quiet count never lowers the level.  Without the verbose
    flag a larger quiet count gives a level at least as high; with it the
    level is at most that of any other setting; and the level is always one
    between DEBUG and ERROR, never NOTSET, so the logger never falls back on
    its parent's level. *)
Theorem setup_logger_level_is_monotone (logger : logging.Logger)
    (quiet_count quieter : Z) (verbose' : bool) :
  quiet_count <= quieter ->
  logging.getEffectiveLevel (setup_logger logger quiet_count false)
  <= logging.getEffectiveLevel (setup_logger logger quieter false) /\
  logging.getEffectiveLevel (setup_logger logger quiet_count true)
  <= logging.getEffectiveLevel (setup_logger logger quieter verbose') /\
  logging.DEBUG
  <= logging.getEffectiveLevel (setup_logger logger quiet_count verbose')
  <= logging.ERROR /\
  logging.level (setup_logger logger quiet_count verbose') <> logging.NOTSET.
Proof.
  intros Hq. rewrite !setup_logger_level.
  assert (logging.level (setup_logger logger quiet_count verbose')
          = log_level_of quiet_count verbose') as -> by reflexivity.
  unfold log_level_of, logging.DEBUG, logging.INFO, logging.WARNING,
    logging.ERROR, logging.NOTSET.
  destruct verbose';
    destruct (Z.eqb_spec quiet_count 1), (Z.eqb_spec quieter 1),
      (Z.geb_spec quiet_count 2), (Z.geb_spec quieter 2); lia.
Qed.

(** X14: [setup_logger] adds one handler, at the level it gives the
    logger, and keeps the handlers the logger had; called a second time it
    makes the logger's level that of the second call and adds a second
    handler, the first one keeping the level of the first call. *)
Theorem setup_logger_twice (logger : logging.Logger)
    (quiet1 quiet2 : Z) (verbose1 verbose2 : bool) :
  map logging.handler_level
      (logging.handlers (setup_logger logger quiet1 verbose1))
  = map logging.handler_level (logging.handlers logger)
    ++ [logging.getEffectiveLevel (setup_logger logger quiet1 verbose1)] /\
  map logging.handler_level
      (logging.handlers
         (setup_logger (setup_logger logger quiet1 verbose1) quiet2 verbose2))
  = map logging.handler_level (logging.handlers logger)
    ++ [logging.getEffectiveLevel (setup_logger logger quiet1 verbose1);
        logging.getEffectiveLevel (setup_logger logger quiet2 verbose2)] /\
  logging.getEffectiveLevel
    (setup_logger (setup_logger logger quiet1 verbose1) quiet2 verbose2)
  = logging.getEffectiveLevel (setup_logger logger quiet2 verbose2).
Proof.
  rewrite !setup_logger_level. unfold setup_logger. simpl.
  rewrite !map_app, <- app_assoc. simpl. auto.
Qed.

(** ** The further properties on the test double *)

Lemma main_stops_at_first_failure_witness :
  forallb returned (trace_of (main Demo.args Demo.broken_results)) = false /\
  exists x,
    first_failure (trace_of (main Demo.args Demo.broken_results))
    = Some (x, []) /\
    outcome_of (main Demo.args Demo.broken_results) = Raise x.
Proof.
  split; [reflexivity|].
  apply (main_stops_at_first_failure (C:=Demo.collaborators)
           Demo.args Demo.broken_results).
  reflexivity.
Defined.

Lemma main_returns_only_with_two_entries_witness :
  outcome_of (main Demo.args Demo.four_files) = Ok tt /\
  forallb returned (trace_of (main Demo.args Demo.four_files)) = true /\
  exists first second rest,
    listings (trace_of (main Demo.args Demo.four_files))
    = [first :: second :: rest].
Proof.
  split; [reflexivity|].
  apply (main_returns_only_with_two_entries (C:=Demo.collaborators)
           Demo.args Demo.four_files).
  reflexivity.
Defined.

Lemma main_automates_after_warm_up_witness :
  existsb automation (trace_of (main Demo.args Demo.one_file)) = true /\
  exists t0 process rest,
    trace_of (main Demo.args Demo.one_file)
    = EClock t0
      :: EPopen Demo.netuno_exe (Ok process)
      :: ELog (LogSpawned process)
      :: ESleep 5 (Ok tt)
      :: rest.
Proof.
  split; [reflexivity|].
  apply (main_automates_after_warm_up (C:=Demo.collaborators)
           Demo.args Demo.one_file).
  reflexivity.
Defined.

Lemma main_missing_scenario_is_fatal_witness :
  missing_scenarios
    (trace_of (main (C:=Cases.only_rcp45) Demo.args Demo.four_files))
  = ["rcp85"] /\
  outcome_of (main (C:=Cases.only_rcp45) Demo.args Demo.four_files)
  = Raise (KeyError "rcp85") /\
  run_simulation_calls
    (trace_of (main (C:=Cases.only_rcp45) Demo.args Demo.four_files)) = [].
Proof.
  split; [reflexivity|]. split; [|reflexivity].
  apply (main_missing_scenario_is_fatal (C:=Cases.only_rcp45)
           Demo.args Demo.four_files "rcp85").
  reflexivity.
Defined.


Lemma main_reports_total_time_witness :
  reported_totals (trace_of (main Demo.args Demo.four_files)) = [50%float] /\
  exists start stop average process entries,
    head (trace_of (main Demo.args Demo.four_files)) = Some (EClock start) /\
    [EClock stop; ELog (LogCompleted 50 average); ETerminate process;
     ELog LogTerminated] `suffix_of` trace_of (main Demo.args Demo.four_files) /\
    last (clock_readings (trace_of (main Demo.args Demo.four_files)))
    = Some stop /\
    50%float = (stop - start)%float /\
    listings (trace_of (main Demo.args Demo.four_files)) = [entries] /\
    length (clock_readings (trace_of (main Demo.args Demo.four_files)))
    = (2 * length entries + 2)%nat.
Proof.
  split; [reflexivity|].
  apply (main_reports_total_time (C:=Demo.collaborators)
           Demo.args Demo.four_files 50%float).
  reflexivity.
Defined.

Lemma main_export_root_components_witness :
  (length (parts (precipitation_dir_path Cases.relative_args)) <= 2)%nat /\
  Forall (fun root => root = mkPath "" [])
         (export_roots (trace_of (main Cases.relative_args Demo.four_files))).
Proof.
  split; [simpl; lia|].
  eapply Forall_impl;
    [apply (main_export_root_components (C:=Demo.collaborators)
              Cases.relative_args Demo.four_files)|].
  intros root (_ & _ & Hshort). apply Hshort. simpl. lia.
Defined.

Lemma setup_logger_level_is_monotone_witness :
  1 <= 2 /\
  logging.getEffectiveLevel (setup_logger logging.getLogger 1 false)
  <= logging.getEffectiveLevel (setup_logger logging.getLogger 2 false).
Proof.
  split; [lia|].
  apply (setup_logger_level_is_monotone logging.getLogger 1 2 false). lia.
Defined.

Lemma main_sets_up_once_witness :
  listings (trace_of (main Demo.args Demo.no_file)) <> [] /\
  setup_calls (trace_of (main Demo.args Demo.no_file))
  = [AutomatorBuilt; ExporterBuilt (mkPath "C:\" ["data"]);
     DirectoryListed Demo.precipitation].
Proof.
  split; [discriminate|].
  apply (proj2 (main_sets_up_once (C:=Demo.collaborators)
                  Demo.args Demo.no_file)).
  discriminate.
Defined.
